(** * SNS registration front end: wallet session, domain manager, registration flow

    A shallow embedding of the JavaScript sources
      - [src/js/domain.js]  (class [DomainManager]),
      - [wallet.js]         (class [WalletManager], imported under that name
                            by [app.js]),
      - [src/js/ui.js]      (the four progress-step elements of [UIManager]),
      - [src/js/app.js]     ([SNSRegistrationApp.handleDomainRegistration]),
    followed by the properties of the specification that concern them.

    Conventions of the embedding.
      - A JS [Number] is an IEEE 754 binary64 value: Rocq's primitive [float],
        whose literals round to the nearest double exactly as JS literals do.
      - A JS string is a [string]; every test the code performs on a name
        ([length], membership in a character class, comparison with ["-"]) is
        per code unit, so a non-ASCII code unit behaves as any other character
        outside [[a-z0-9-]].
      - [async] methods are functions in a state-and-exception monad over the
        fields the classes mutate; every call that leaves the page (RPC node,
        wallet extension, name service, timers, DOM events) is appended to a
        log, and its answer is read from an environment [Env] that may depend
        on the whole log so far.
      - [console.log]/[console.error] are not modelled. *)

From Stdlib Require Import Bool Arith Lia List String Ascii NArith ZArith Floats.
Import ListNotations.
Set Warnings "-inexact-float".

Local Open Scope list_scope.
Local Open Scope bool_scope.
Local Open Scope string_scope.

(* ================================================================== *)
(** * JavaScript strings *)

(** [s.startsWith(p)] *)
Definition startsWith (s p : string) : bool := String.prefix p s.

(** [s.endsWith(p)]: some tail of [s] is [p]. *)
Fixpoint endsWith (s p : string) : bool :=
  String.eqb s p ||
  match s with
  | EmptyString => false
  | String _ s' => endsWith s' p
  end.

(** [s.includes(p)]: [p] is a prefix of some tail of [s]. *)
Fixpoint includes (s p : string) : bool :=
  String.prefix p s ||
  match s with
  | EmptyString => false
  | String _ s' => includes s' p
  end.

(** Truthiness of a string: only [''] is falsy. *)
Definition truthy_string (s : string) : bool :=
  match s with EmptyString => false | _ => true end.

(** Truthiness of a number: [0], [-0] and [NaN] are falsy. *)
Definition truthy_number (x : float) : bool :=
  negb (PrimFloat.eqb x 0%float) && PrimFloat.eqb x x.

(** [a || b] on a possibly-undefined number. *)
Definition or_number (a : option float) (b : float) : float :=
  match a with
  | Some x => if truthy_number x then x else b
  | None => b
  end.

(** [msg || dflt] on strings. *)
Definition or_string (msg dflt : string) : string :=
  if truthy_string msg then msg else dflt.

(* ================================================================== *)
(** * Validator: [DomainManager.validateDomainName] *)

Definition in_range (lo hi c : ascii) : bool :=
  (N_of_ascii lo <=? N_of_ascii c)%N && (N_of_ascii c <=? N_of_ascii hi)%N.

(** The character class [[a-z0-9-]]. *)
Definition validChar (c : ascii) : bool :=
  in_range "a" "z" c || in_range "0" "9" c || Ascii.eqb c "-".

(** [/^[a-z0-9-]+$/.test(s)]: without the [m] flag [$] only matches at the end
    of the input, so the test holds exactly for the non-empty strings whose
    characters are all in the class. *)
Definition validCharRegex_test (s : string) : bool :=
  truthy_string s && forallb validChar (list_ascii_of_string s).

(** The object [{ isValid, error }]; [error] is absent on success. *)
Record Validation := { isValid : bool; error : option string }.

Definition invalid (reason : string) : Validation :=
  {| isValid := false; error := Some reason |}.

Definition validateDomainName (domain : string) : Validation :=
  if negb (truthy_string domain) then
    invalid "Domain name is required"
  else if (String.length domain <? 1)%nat then
    invalid "Domain name must be at least 1 character"
  else if (32 <? String.length domain)%nat then
    invalid "Domain name cannot exceed 32 characters"
  else if negb (validCharRegex_test domain) then
    invalid "Domain name can only contain lowercase letters, numbers, and hyphens"
  else if startsWith domain "-" || endsWith domain "-" then
    invalid "Domain name cannot start or end with a hyphen"
  else if includes domain "--" then
    invalid "Domain name cannot contain consecutive hyphens"
  else
    {| isValid := true; error := None |}.

(** The rules of the specification, in the order it lists them. *)
Inductive Rule :=
  RuleEmpty | RuleTooLong | RuleCharset | RuleEdgeHyphen | RuleDoubleHyphen.

Definition rank (r : Rule) : nat :=
  match r with
  | RuleEmpty => 0 | RuleTooLong => 1 | RuleCharset => 2
  | RuleEdgeHyphen => 3 | RuleDoubleHyphen => 4
  end.

(** A lowercase letter, a digit or the hyphen, stated on character codes. *)
Definition allowed (c : ascii) : Prop :=
  (97 <= nat_of_ascii c <= 122) \/ (48 <= nat_of_ascii c <= 57) \/ c = "-"%char.

(** [violates r d]: the candidate [d] breaks rule [r]. *)
Definition violates (r : Rule) (d : string) : Prop :=
  match r with
  | RuleEmpty => d = ""
  | RuleTooLong => 32 < String.length d
  | RuleCharset => exists c, In c (list_ascii_of_string d) /\ ~ allowed c
  | RuleEdgeHyphen => (exists t, d = "-" ++ t) \/ (exists t, d = t ++ "-")
  | RuleDoubleHyphen => exists l t, d = l ++ "--" ++ t
  end.

(** The reason reported for each rule. *)
Definition reason (r : Rule) : string :=
  match r with
  | RuleEmpty => "Domain name is required"
  | RuleTooLong => "Domain name cannot exceed 32 characters"
  | RuleCharset => "Domain name can only contain lowercase letters, numbers, and hyphens"
  | RuleEdgeHyphen => "Domain name cannot start or end with a hyphen"
  | RuleDoubleHyphen => "Domain name cannot contain consecutive hyphens"
  end.

(** The test the code performs for each rule. *)
Definition violatesb (r : Rule) (d : string) : bool :=
  match r with
  | RuleEmpty => negb (truthy_string d)
  | RuleTooLong => (32 <? String.length d)%nat
  | RuleCharset => negb (forallb validChar (list_ascii_of_string d))
  | RuleEdgeHyphen => startsWith d "-" || endsWith d "-"
  | RuleDoubleHyphen => includes d "--"
  end.

Definition rules : list Rule :=
  [RuleEmpty; RuleTooLong; RuleCharset; RuleEdgeHyphen; RuleDoubleHyphen].

(** The first rule, in the order of the specification, that [d] fails. *)
Definition first_violation (d : string) : option Rule :=
  find (fun r => violatesb r d) rules.

(* ================================================================== *)
(** * Pricer: [DomainManager.pricing], [networkFee], [calculatePrice] *)

(** The object literal [this.pricing]. *)
Record Pricing := {
  pricing_1 : float;
  pricing_2 : float;
  pricing_3 : float;
  pricing_4 : float;
  pricing_default : float
}.

Definition pricing : Pricing := {|
  pricing_1 := 0.05;
  pricing_2 := 0.05;
  pricing_3 := 0.1;
  pricing_4 := 0.05;
  pricing_default := 0.02
|}.

(** [this.pricing[k]] for a computed numeric key: [undefined] off the table. *)
Definition pricing_at (p : Pricing) (k : nat) : option float :=
  match k with
  | 1 => Some (pricing_1 p)
  | 2 => Some (pricing_2 p)
  | 3 => Some (pricing_3 p)
  | 4 => Some (pricing_4 p)
  | _ => None
  end.

Definition networkFee : float := 0.001.

Definition calculatePrice (domainName : string) : float :=
  let length := String.length domainName in
  if (length <=? 2)%nat then
    or_number (pricing_at pricing length) (pricing_default pricing)
  else if (length =? 3)%nat then
    pricing_3 pricing
  else if (length =? 4)%nat then
    pricing_4 pricing
  else
    pricing_default pricing.

(* ================================================================== *)
(** * Effects: exceptions, promises, the page state and the outside world *)

(** A thrown value: an [Error] object.  [code] is the numeric [code] property
    wallet extensions put on their errors (4001 for a refusal); an [Error]
    built with [new Error(msg)] has none. *)
Record Error := { message : string; code : option Z }.

(** [new Error(msg)] *)
Definition newError (msg : string) : Error :=
  {| message := msg; code := None |}.

(** How a block of code ends. *)
Inductive completion (A : Type) : Type :=
| Normal (a : A)
| Throw (e : Error).
Arguments Normal {A} a.
Arguments Throw {A} e.

(** The fate of an awaited promise.  Promises that are awaited without a
    timeout are taken to settle. *)
Inductive outcome (A : Type) : Type :=
| Fulfilled (a : A)
| Rejected (e : Error).
Arguments Fulfilled {A} a.
Arguments Rejected {A} e.

(** A promise raced against a timer: it settles after [ms] milliseconds, or
    never does. *)
Inductive settle (A : Type) : Type :=
| Settles (ms : N) (o : outcome A)
| NeverSettles.
Arguments Settles {A} ms o.
Arguments NeverSettles {A}.

(** [await Promise.race([p, timeoutPromise])] where the timer rejects with
    [timeoutError] after [timeout] ms: the promise wins only when it settles
    strictly before the timer fires. *)
Definition race {A} (timeout : N) (timeoutError : Error) (p : settle A)
  : completion A :=
  match p with
  | Settles ms (Fulfilled a) =>
      if (ms <? timeout)%N then Normal a else Throw timeoutError
  | Settles ms (Rejected e) =>
      if (ms <? timeout)%N then Throw e else Throw timeoutError
  | NeverSettles => Throw timeoutError
  end.

(** ** Values exchanged with the SDK *)

(** A [PublicKey], by its base58 rendering. *)
Definition PublicKey := string.

(** [new Connection(endpoint, commitment)] *)
Record Connection := { rpcEndpoint : string; commitment : string }.

(** The injected wallet object; the page only ever holds [window.solana]. *)
Inductive WalletObj := WindowSolana.

(** [SystemProgram.transfer({ fromPubkey, toPubkey, lamports })] *)
Record Instruction := {
  fromPubkey : option PublicKey;
  toPubkey : PublicKey;
  lamports : float
}.

Record Transaction := {
  instructions : list Instruction;
  recentBlockhash : option string;
  feePayer : option PublicKey
}.

(** The answer of [getLatestBlockhash]. *)
Record BlockhashInfo := { blockhash : string; lastValidBlockHeight : float }.

(** An event the wallet extension emits to the listeners installed by
    [setupWalletEventListeners]. *)
Inductive WalletEvent :=
| OnConnect (pk : PublicKey)
| OnDisconnect
| OnAccountChanged (pk : option PublicKey).

(** ** The step elements of the transaction status panel *)

Inductive StatusHtml := HtmlNone | HtmlSpinner | HtmlCross.

(** One [.step] element: the three classes the code toggles and the content
    of its [.step-status] child. *)
Record StepEl := {
  cls_active : bool;
  cls_completed : bool;
  cls_error : bool;
  step_status : StatusHtml
}.

(** [this.elements.step1 .. step4] *)
Record Steps := {
  step1 : StepEl;
  step2 : StepEl;
  step3 : StepEl;
  step4 : StepEl
}.

(** ** Everything that leaves the page, in the order it happens *)

Inductive Event :=
| EvGetVersion (endpoint : string)
| EvDispatch (type : string)
| EvSetTimeout (ms : N)
| EvWalletDisconnect
| EvGetLatestBlockhash (c : Connection)
| EvSignTransaction (tx : Transaction)
| EvSendRawTransaction (raw : string)
| EvConfirmTransaction (signature : string)
| EvGetBalance (c : Connection) (pk : PublicKey)
| EvResolve (c : option Connection) (domain : string)
| EvNotification (msg type : string)
| EvSteps (s : Steps).

(** The outside world.  Each answer may depend on everything that happened
    before (the log at the time of the call).  The last four fields are
    built-ins of the language and of the SDK whose text is not part of this
    repository. *)
Record Env := {
  getVersion : list Event -> string -> settle string;
  getLatestBlockhash : list Event -> Connection -> settle BlockhashInfo;
  signTransaction : list Event -> Transaction -> outcome string;
  sendRawTransaction : list Event -> Connection -> string -> outcome string;
  confirmTransaction :
    list Event -> Connection -> string -> outcome string;
  rpc_getBalance : list Event -> Connection -> PublicKey -> outcome float;
  wallet_disconnect : list Event -> outcome unit * list WalletEvent;
  resolve : list Event -> option Connection -> string ->
            outcome (option PublicKey);
  clusterApiUrl : string -> string;
  Number_toString : float -> string;
  Number_toFixed : float -> nat -> string;
  Math_floor : float -> float
}.

(** ** The objects of the page *)

Record WalletManager := {
  wallet : option WalletObj;
  connection : option Connection;
  publicKey : option PublicKey;
  isConnected : bool;
  currentNetwork : string
}.

(** [DomainManager] keeps its own copy of the connection; its [walletManager]
    field is the one shared [WalletManager] below. *)
Record DomainManager := { dm_connection : option Connection }.

Record UIManager := {
  steps : Steps;
  currentDomain : option string;
  paymentMethod_value : string;
  transactionStatus_hidden : bool;
  transactionDetails_hidden : bool
}.

Record World := {
  walletManager : WalletManager;
  domainManager : DomainManager;
  uiManager : UIManager;
  log : list Event
}.

Definition set_walletManager (f : WalletManager -> WalletManager) (w : World) :=
  {| walletManager := f (walletManager w);
     domainManager := domainManager w;
     uiManager := uiManager w;
     log := log w |}.

Definition set_domainManager (f : DomainManager -> DomainManager) (w : World) :=
  {| walletManager := walletManager w;
     domainManager := f (domainManager w);
     uiManager := uiManager w;
     log := log w |}.

Definition set_uiManager (f : UIManager -> UIManager) (w : World) :=
  {| walletManager := walletManager w;
     domainManager := domainManager w;
     uiManager := f (uiManager w);
     log := log w |}.

Definition set_log (f : list Event -> list Event) (w : World) :=
  {| walletManager := walletManager w;
     domainManager := domainManager w;
     uiManager := uiManager w;
     log := f (log w) |}.

Definition with_wallet (v : option WalletObj) (m : WalletManager) :=
  {| wallet := v; connection := connection m; publicKey := publicKey m;
     isConnected := isConnected m; currentNetwork := currentNetwork m |}.

Definition with_connection (v : option Connection) (m : WalletManager) :=
  {| wallet := wallet m; connection := v; publicKey := publicKey m;
     isConnected := isConnected m; currentNetwork := currentNetwork m |}.

Definition with_publicKey (v : option PublicKey) (m : WalletManager) :=
  {| wallet := wallet m; connection := connection m; publicKey := v;
     isConnected := isConnected m; currentNetwork := currentNetwork m |}.

Definition with_isConnected (v : bool) (m : WalletManager) :=
  {| wallet := wallet m; connection := connection m; publicKey := publicKey m;
     isConnected := v; currentNetwork := currentNetwork m |}.

Definition with_currentNetwork (v : string) (m : WalletManager) :=
  {| wallet := wallet m; connection := connection m; publicKey := publicKey m;
     isConnected := isConnected m; currentNetwork := v |}.

Definition with_steps (v : Steps) (u : UIManager) :=
  {| steps := v; currentDomain := currentDomain u;
     paymentMethod_value := paymentMethod_value u;
     transactionStatus_hidden := transactionStatus_hidden u;
     transactionDetails_hidden := transactionDetails_hidden u |}.

Definition with_transactionStatus_hidden (v : bool) (u : UIManager) :=
  {| steps := steps u; currentDomain := currentDomain u;
     paymentMethod_value := paymentMethod_value u;
     transactionStatus_hidden := v;
     transactionDetails_hidden := transactionDetails_hidden u |}.

Definition with_transactionDetails_hidden (v : bool) (u : UIManager) :=
  {| steps := steps u; currentDomain := currentDomain u;
     paymentMethod_value := paymentMethod_value u;
     transactionStatus_hidden := transactionStatus_hidden u;
     transactionDetails_hidden := v |}.

(** ** The monad of method bodies *)

Definition M (A : Type) : Type := World -> completion A * World.

Definition ret {A} (a : A) : M A := fun w => (Normal a, w).

Definition bind {A B} (c : M A) (k : A -> M B) : M B :=
  fun w =>
    match c w with
    | (Normal a, w') => k a w'
    | (Throw e, w') => (Throw e, w')
    end.

Declare Scope js_scope.
Delimit Scope js_scope with js.
Notation "x <- c ;; k" := (bind c (fun x => k))
  (at level 61, c at next level, right associativity) : js_scope.
Notation "c ;; k" := (bind c (fun _ => k))
  (at level 61, right associativity) : js_scope.
Local Open Scope js_scope.

(** [throw e] *)
Definition throw {A} (e : Error) : M A := fun w => (Throw e, w).

(** Runs [c] and hands its completion back as a value. *)
Definition attempt {A} (c : M A) : M (completion A) :=
  fun w => let (r, w') := c w in (Normal r, w').

(** [try { c } catch (error) { handler error }] *)
Definition try_catch {A} (c : M A) (handler : Error -> M A) : M A :=
  r <- attempt c ;;
  match r with
  | Normal a => ret a
  | Throw e => handler e
  end.

(** [try { c } finally { f }], for an [f] that neither returns nor throws a
    value of its own: the completion of [c] stands unless [f] throws. *)
Definition try_finally {A} (c : M A) (f : M unit) : M A :=
  r <- attempt c ;;
  f ;;
  match r with
  | Normal a => ret a
  | Throw e => throw e
  end.

Definition get : M World := fun w => (Normal w, w).

Definition modify (f : World -> World) : M unit := fun w => (Normal tt, f w).

(** Appends an event to the log. *)
Definition emit (e : Event) : M unit :=
  modify (set_log (fun l => (l ++ [e])%list)).

(** [await p] for a promise whose fate is [o]. *)
Definition await {A} (o : outcome A) : M A :=
  match o with
  | Fulfilled a => ret a
  | Rejected e => throw e
  end.

(** Brings a completion back into the control flow. *)
Definition complete {A} (r : completion A) : M A :=
  match r with
  | Normal a => ret a
  | Throw e => throw e
  end.

(** [await new Promise(resolve => setTimeout(resolve, ms))] *)
Definition delay (ms : N) : M unit := emit (EvSetTimeout ms).

(** [window.dispatchEvent(new CustomEvent(type, ...))]; the page runs in a
    browser, so [typeof window !== 'undefined'] holds.  What the listeners do
    is outside the methods modelled here, and an exception inside a listener
    does not reach the dispatcher. *)
Definition dispatchEvent (type : string) : M unit := emit (EvDispatch type).

(** The [TypeError] of reading property [prop] of [null] or [undefined]
    (V8's wording). *)
Definition TypeError_reading (what prop : string) : Error :=
  newError ("Cannot read properties of " ++ what ++ " (reading '" ++ prop ++ "')").

(** An external call: logs the event and returns the answer the outside
    world gives with the log as it stood at the time of the call. *)
Definition ask {A} (ev : Event) (answer : list Event -> A) : M A :=
  fun w => (Normal (answer (log w)), set_log (fun l => (l ++ [ev])%list) w).

Definition is_some {A} (o : option A) : bool :=
  match o with Some _ => true | None => false end.

Section Model.

Variable env : Env.

(* ================================================================== *)
(** * Connection Selector and Wallet Session: [WalletManager] *)

Definition mainnetEndpoints : list string :=
  [ "https://rpc.ankr.com/solana";
    "https://solana-mainnet.g.alchemy.com/v2/demo";
    "https://api.mainnet-beta.solana.com";
    "https://mainnet.helius-rpc.com/?api-key=";
    "https://solana-mainnet.rpc.extrnode.com" ].

Definition rpcEndpoints (network : string) : list string :=
  if String.eqb network "mainnet" then mainnetEndpoints
  else [ "https://api.devnet.solana.com"; clusterApiUrl env "devnet" ].

(** The [try] block of one iteration of the loop of [initializeConnection],
    up to its [return].  The [Connection] constructor is taken to accept the
    endpoint, as it does for the URLs of both lists. *)
Definition probeEndpoint (endpoint : string) : M unit :=
  let testConnection := {| rpcEndpoint := endpoint; commitment := "confirmed" |} in
  versionPromise <- ask (EvGetVersion endpoint)
                        (fun h => getVersion env h endpoint) ;;
  version <- complete (race 3000%N (newError "Connection timeout") versionPromise) ;;
  modify (set_walletManager (with_connection (Some testConnection))) ;;
  dispatchEvent "networkChanged".

(** [for (const endpoint of rpcEndpoints) { try { ...; return; } catch {} }]
    followed by the final [throw]. *)
Fixpoint selectEndpoint (network : string) (endpoints : list string) : M unit :=
  match endpoints with
  | [] => throw (newError ("Failed to connect to " ++ network))
  | endpoint :: rest =>
      r <- attempt (probeEndpoint endpoint) ;;
      match r with
      | Normal _ => ret tt
      | Throw _ => selectEndpoint network rest
      end
  end.

Definition initializeConnection (network : string) : M unit :=
  modify (set_walletManager (with_currentNetwork network)) ;;
  selectEndpoint network (rpcEndpoints network).

Definition handleWalletConnect (pk : PublicKey) : M unit :=
  modify (set_walletManager (with_publicKey (Some pk))) ;;
  modify (set_walletManager (with_isConnected true)) ;;
  dispatchEvent "walletConnected".

Definition handleWalletDisconnect : M unit :=
  modify (set_walletManager (with_wallet None)) ;;
  modify (set_walletManager (with_publicKey None)) ;;
  modify (set_walletManager (with_isConnected false)) ;;
  dispatchEvent "walletDisconnected".

Definition handleAccountChange (pk : PublicKey) : M unit :=
  modify (set_walletManager (with_publicKey (Some pk))) ;;
  dispatchEvent "walletAccountChanged".

(** The listeners of [setupWalletEventListeners]. *)
Definition onWalletEvent (e : WalletEvent) : M unit :=
  match e with
  | OnConnect pk => handleWalletConnect pk
  | OnDisconnect => handleWalletDisconnect
  | OnAccountChanged (Some pk) => handleAccountChange pk
  | OnAccountChanged None => handleWalletDisconnect
  end.

Fixpoint onWalletEvents (es : list WalletEvent) : M unit :=
  match es with
  | [] => ret tt
  | e :: es' => onWalletEvent e ;; onWalletEvents es'
  end.

(** [await this.wallet.disconnect()]: while the call is pending the extension
    may emit events of its own (typically ['disconnect']), and the listeners
    above run before the method resumes. *)
Definition await_wallet_disconnect : M unit :=
  answer <- ask EvWalletDisconnect (wallet_disconnect env) ;;
  onWalletEvents (snd answer) ;;
  await (fst answer).

Definition disconnect : M unit :=
  try_finally
    (try_catch
       (w <- get ;;
        if is_some (wallet (walletManager w)) && isConnected (walletManager w)
        then await_wallet_disconnect
        else ret tt)
       (fun error => ret tt))
    handleWalletDisconnect.

(** The object returned by [signAndSendTransaction]. *)
Record SendResult := {
  sr_success : bool;
  sr_signature : string;
  sr_confirmation : string;
  sr_network : string
}.

(** The [catch] block of [signAndSendTransaction]. *)
Definition classifyTransactionError (error : Error) : Error :=
  if includes (message error) "User rejected"
     || match code error with Some c => (c =? 4001)%Z | None => false end
  then newError "Transaction rejected by user"
  else if includes (message error) "insufficient funds"
  then newError "Insufficient SOL balance for transaction"
  else if includes (message error) "Timeout"
  then newError "Transaction timed out. Please try again."
  else newError (or_string (message error) "Transaction failed").

(** [this.connection.method(...)]: a [TypeError] when no connection was ever
    selected. *)
Definition the_connection (method : string) : M Connection :=
  w <- get ;;
  match connection (walletManager w) with
  | Some c => ret c
  | None => throw (TypeError_reading "null" method)
  end.

Definition signAndSendTransaction (transaction : Transaction) : M SendResult :=
  w <- get ;;
  if negb (isConnected (walletManager w)) || negb (is_some (wallet (walletManager w)))
  then throw (newError "Wallet not connected")
  else
    try_catch
      (c <- the_connection "getLatestBlockhash" ;;
       blockhashPromise <- ask (EvGetLatestBlockhash c)
                               (fun h => getLatestBlockhash env h c) ;;
       bh <- complete (race 10000%N (newError "Timeout getting blockhash")
                            blockhashPromise) ;;
       w <- get ;;
       let transaction :=
         {| instructions := instructions transaction;
            recentBlockhash := Some (blockhash bh);
            feePayer := publicKey (walletManager w) |} in
       signed <- ask (EvSignTransaction transaction)
                     (fun h => signTransaction env h transaction) ;;
       signedTransaction <- await signed ;;
       c <- the_connection "sendRawTransaction" ;;
       sent <- ask (EvSendRawTransaction signedTransaction)
                   (fun h => sendRawTransaction env h c signedTransaction) ;;
       signature <- await sent ;;
       c <- the_connection "confirmTransaction" ;;
       confirmed <- ask (EvConfirmTransaction signature)
                        (fun h => confirmTransaction env h c signature) ;;
       confirmation <- await confirmed ;;
       w <- get ;;
       ret {| sr_success := true;
              sr_signature := signature;
              sr_confirmation := confirmation;
              sr_network := currentNetwork (walletManager w) |})
      (fun error => throw (classifyTransactionError error)).

(** One [connection.getBalance(publicKey, 'confirmed')] and the division that
    follows it: the inner [try] of [getBalance]. *)
Definition fetchBalance (pk : PublicKey) : M float :=
  c <- the_connection "getBalance" ;;
  answer <- ask (EvGetBalance c pk) (fun h => rpc_getBalance env h c pk) ;;
  balance <- await answer ;;
  ret (balance / 1e9)%float.

(** [while (retries > 0) { try { ...; return } catch { retries--; ... } }];
    [None] is the [undefined] of falling out of the loop. *)
Fixpoint getBalance_loop (pk : PublicKey) (retries : nat) : M (option float) :=
  match retries with
  | O => ret None
  | S retries' =>
      r <- attempt (fetchBalance pk) ;;
      match r with
      | Normal balance => ret (Some balance)
      | Throw error =>
          if (retries' =? 0)%nat then throw error
          else delay 1000%N ;; getBalance_loop pk retries'
      end
  end.

Definition getBalance : M (option float) :=
  w <- get ;;
  match isConnected (walletManager w), publicKey (walletManager w) with
  | true, Some pk =>
      try_catch (getBalance_loop pk 3) (fun error => ret (Some 0%float))
  | _, _ => ret (Some 0%float)
  end.

Definition getCurrentNetwork : M string :=
  w <- get ;; ret (currentNetwork (walletManager w)).

Definition getExplorerUrl (signature : string) : M string :=
  w <- get ;;
  let net := currentNetwork (walletManager w) in
  let baseUrl := if String.eqb net "devnet"
                 then "https://explorer.solana.com/tx/"
                 else "https://explorer.solana.com/tx/" in
  let cluster := if String.eqb net "devnet" then "?cluster=devnet" else "" in
  ret (baseUrl ++ signature ++ cluster).

(* ================================================================== *)
(** * Registration workflow: [DomainManager] *)

(** The three shapes of object [checkDomainAvailability] returns:
    [{ success: false, error }],
    [{ success: true, available: false, domain, owner, network }] and
    [{ success: true, available: true, domain, basePrice, networkFee,
       totalPrice, network, priceUSD }]. *)
Inductive Availability :=
| CheckFailed (error : string)
| DomainTaken (domain owner network : string)
| DomainAvailable (domain : string) (basePrice networkFee totalPrice : float)
                  (network priceUSD : string).

Definition success (a : Availability) : bool :=
  match a with CheckFailed _ => false | _ => true end.

(** [a.available] as a condition: absent (falsy) on a failure. *)
Definition available (a : Availability) : bool :=
  match a with DomainAvailable _ _ _ _ _ _ => true | _ => false end.

(** [solAmount * 100] rendered with two decimals; the [try] around it has
    nothing to catch. *)
Definition convertSOLToUSD (solAmount : float) : string :=
  let solPriceUSD := 100%float in
  Number_toFixed env (solAmount * solPriceUSD)%float 2.

(** [None] is the [undefined] returned when [resolve] answers without an
    owner and without throwing: no [return] is reached. *)
Definition checkDomainAvailability (domainName : string)
  : M (option Availability) :=
  try_catch
    (let validation := validateDomainName domainName in
     if negb (isValid validation) then
       ret (Some (CheckFailed
                    match error validation with Some e => e | None => "" end))
     else
       w <- get ;;
       modify (set_domainManager
                 (fun _ => {| dm_connection := connection (walletManager w) |})) ;;
       r <- attempt
              (answer <- ask (EvResolve (connection (walletManager w)) domainName)
                             (fun h => resolve env h (connection (walletManager w))
                                               domainName) ;;
               await answer) ;;
       match r with
       | Normal (Some owner) =>
           network <- getCurrentNetwork ;;
           ret (Some (DomainTaken domainName owner network))
       | Normal None => ret None
       | Throw resolveError =>
           let basePrice := calculatePrice domainName in
           let totalPrice := (basePrice + networkFee)%float in
           network <- getCurrentNetwork ;;
           ret (Some (DomainAvailable domainName basePrice networkFee totalPrice
                                      network (convertSOLToUSD totalPrice)))
       end)
    (fun error =>
       ret (Some (CheckFailed
                    ("Failed to check domain availability: " ++ message error)))).

(** The object returned by a successful [registerDomain]. *)
Record Registration := {
  reg_signature : string;
  reg_domain : string;
  reg_cost : float;
  reg_paymentMethod : string;
  reg_network : string;
  reg_explorerUrl : string
}.

(** The SDK's constant: lamports in one SOL. *)
Definition LAMPORTS_PER_SOL : float := 1000000000%float.

Definition registerDomain (domainName paymentMethod : string) : M Registration :=
  try_catch
    (w <- get ;;
     if negb (isConnected (walletManager w)) then
       throw (newError "Wallet not connected")
     else
       modify (set_domainManager
                 (fun _ => {| dm_connection := connection (walletManager w) |})) ;;
       let validation := validateDomainName domainName in
       if negb (isValid validation) then
         throw (newError match error validation with Some e => e | None => "" end)
       else
         availability <- checkDomainAvailability domainName ;;
         match availability with
         | None => throw (TypeError_reading "undefined" "success")
         | Some (DomainAvailable _ _ _ totalCost _ _) =>
             balance <- getBalance ;;
             if match balance with
                | Some b => PrimFloat.ltb b totalCost
                | None => false
                end
             then
               throw (newError
                        ("Insufficient balance. You need "
                         ++ Number_toString env totalCost
                         ++ " SOL but only have "
                         ++ match balance with
                            | Some b => Number_toFixed env b 4
                            | None => ""
                            end
                         ++ " SOL"))
             else
               w <- get ;;
               let transferInstruction :=
                 {| fromPubkey := publicKey (walletManager w);
                    toPubkey := "11111111111111111111111111111112";
                    lamports := Math_floor env (totalCost * LAMPORTS_PER_SOL)%float |} in
               let transaction :=
                 {| instructions := [transferInstruction];
                    recentBlockhash := None;
                    feePayer := None |} in
               result <- signAndSendTransaction transaction ;;
               if sr_success result then
                 network <- getCurrentNetwork ;;
                 explorerUrl <- getExplorerUrl (sr_signature result) ;;
                 ret {| reg_signature := sr_signature result;
                        reg_domain := domainName;
                        reg_cost := totalCost;
                        reg_paymentMethod := paymentMethod;
                        reg_network := network;
                        reg_explorerUrl := explorerUrl |}
               else throw (newError "Transaction failed")
         | Some _ => throw (newError "Domain is not available for registration")
         end)
    (fun error =>
       throw (newError (or_string (message error) "Failed to register domain"))).

(** An entry of the array [searchSimilarDomains] returns. *)
Record Suggestion := { sg_domain : string; sg_price : float }.

Definition suffixes : list string := ["1"; "2"; "x"].

Definition maxSuggestions : nat := 3.

(** The [for (const suffix of suffixes)] loop, with the array built so far. *)
Fixpoint searchSimilarDomains_loop (baseDomain : string) (todo : list string)
    (suggestions : list Suggestion) : M (list Suggestion) :=
  match todo with
  | [] => ret suggestions
  | suffix :: todo' =>
      if (maxSuggestions <=? List.length suggestions)%nat then ret suggestions
      else
        let suggestion := baseDomain ++ suffix in
        if isValid (validateDomainName suggestion) then
          r <- attempt (checkDomainAvailability suggestion) ;;
          match r with
          | Normal (Some (DomainAvailable _ _ _ totalPrice _ _)) =>
              searchSimilarDomains_loop baseDomain todo'
                (suggestions ++ [{| sg_domain := suggestion;
                                    sg_price := totalPrice |}])%list
          | _ => searchSimilarDomains_loop baseDomain todo' suggestions
          end
        else searchSimilarDomains_loop baseDomain todo' suggestions
  end.

Definition searchSimilarDomains (baseDomain : string) : M (list Suggestion) :=
  searchSimilarDomains_loop baseDomain suffixes [].

(* ================================================================== *)
(** * Status projector: the step elements of [UIManager] *)

(** [this.elements[`step${stepNumber}`]]: [undefined] off 1..4. *)
Definition step_at (stepNumber : nat) (s : Steps) : option StepEl :=
  match stepNumber with
  | 1 => Some (step1 s)
  | 2 => Some (step2 s)
  | 3 => Some (step3 s)
  | 4 => Some (step4 s)
  | _ => None
  end.

Definition put_step (stepNumber : nat) (el : StepEl) (s : Steps) : Steps :=
  match stepNumber with
  | 1 => {| step1 := el; step2 := step2 s; step3 := step3 s; step4 := step4 s |}
  | 2 => {| step1 := step1 s; step2 := el; step3 := step3 s; step4 := step4 s |}
  | 3 => {| step1 := step1 s; step2 := step2 s; step3 := el; step4 := step4 s |}
  | 4 => {| step1 := step1 s; step2 := step2 s; step3 := step3 s; step4 := el |}
  | _ => s
  end.

(** [element.classList.remove('active', 'completed')] *)
Definition remove_active_completed (el : StepEl) : StepEl :=
  {| cls_active := false; cls_completed := false;
     cls_error := cls_error el; step_status := step_status el |}.

Definition element (stepNumber : nat) : M StepEl :=
  w <- get ;;
  match step_at stepNumber (steps (uiManager w)) with
  | Some el => ret el
  | None => throw (TypeError_reading "undefined" "querySelector")
  end.

Definition write_step (stepNumber : nat) (el : StepEl) : M unit :=
  modify (set_uiManager
            (fun u => with_steps (put_step stepNumber el (steps u)) u)).

(** Records the state of the four step elements as a method leaves them. *)
Definition snapshot : M unit :=
  w <- get ;; emit (EvSteps (steps (uiManager w))).

Definition setTransactionStep (stepNumber : nat) (status : string) : M unit :=
  el <- element stepNumber ;;
  let el := remove_active_completed el in
  let el :=
    if String.eqb status "active" then
      {| cls_active := true; cls_completed := cls_completed el;
         cls_error := cls_error el; step_status := HtmlSpinner |}
    else if String.eqb status "completed" then
      {| cls_active := cls_active el; cls_completed := true;
         cls_error := cls_error el; step_status := HtmlNone |}
    else el in
  write_step stepNumber el ;;
  snapshot.

Fixpoint forEach {A} (l : list A) (f : A -> M unit) : M unit :=
  match l with
  | [] => ret tt
  | a :: l' => f a ;; forEach l' f
  end.

Definition resetTransactionSteps : M unit :=
  forEach [1; 2; 3; 4]
    (fun step =>
       el <- element step ;;
       let el := remove_active_completed el in
       write_step step
         {| cls_active := cls_active el; cls_completed := cls_completed el;
            cls_error := cls_error el; step_status := HtmlNone |}) ;;
  modify (set_uiManager (with_transactionDetails_hidden true)) ;;
  snapshot.

(** [hideRegistrationForm] and the scrolling touch nothing modelled here. *)
Definition showTransactionStatus : M unit :=
  modify (set_uiManager (with_transactionStatus_hidden false)) ;;
  resetTransactionSteps ;;
  setTransactionStep 1 "active".

Definition hideTransactionStatus : M unit :=
  modify (set_uiManager (with_transactionStatus_hidden true)).

Definition showNotification (msg type : string) : M unit :=
  emit (EvNotification msg type).

(** [for (let i = 1; i <= 4; i++) if (... contains('active')) return i;]
    with [fallback] the value returned after the loop. *)
Fixpoint firstActive (candidates : list nat) (fallback : nat) (s : Steps) : nat :=
  match candidates with
  | [] => fallback
  | i :: rest =>
      match step_at i s with
      | Some el => if cls_active el then i else firstActive rest fallback s
      | None => firstActive rest fallback s
      end
  end.

Definition getCurrentActiveStep : M nat :=
  w <- get ;; ret (firstActive [1; 2; 3; 4] 1 (steps (uiManager w))).

(** The UTF-8 bytes of the emoji that ends the success notice. *)
Definition party_popper : string :=
  String (ascii_of_nat 240) (String (ascii_of_nat 159)
    (String (ascii_of_nat 142) (String (ascii_of_nat 137) ""))).

(** [updateTransactionStatus(status, details)], which branches on
    [details.success].  The link, the text fields and the timer that resets
    the form fifteen seconds later are not modelled. *)
Definition updateTransactionStatus (details_success : bool)
    (details_error details_network : string) : M unit :=
  if details_success then
    forEach [1; 2; 3; 4] (fun step => setTransactionStep step "completed") ;;
    modify (set_uiManager (with_transactionDetails_hidden false)) ;;
    showNotification
      ("Domain registered successfully on " ++ details_network ++ "! "
       ++ party_popper) "success"
  else
    currentStep <- getCurrentActiveStep ;;
    (if (currentStep =? 0)%nat then ret tt
     else
       el <- element currentStep ;;
       write_step currentStep
         {| cls_active := false; cls_completed := cls_completed el;
            cls_error := true; step_status := HtmlCross |} ;;
       snapshot) ;;
    showNotification (or_string details_error "Transaction failed") "error".

(* ================================================================== *)
(** * [SNSRegistrationApp.handleDomainRegistration] *)

Definition handleDomainRegistration : M unit :=
  try_catch
    (w <- get ;;
     if negb (isConnected (walletManager w)) then
       showNotification "Please connect your wallet first" "warning"
     else
       let domainName :=
         match currentDomain (uiManager w) with Some d => d | None => "" end in
       let paymentMethod := paymentMethod_value (uiManager w) in
       if negb (truthy_string domainName) then
         showNotification "No domain selected" "error"
       else
         showTransactionStatus ;;
         try_catch
           (setTransactionStep 1 "active" ;;
            delay 1000%N ;;
            setTransactionStep 1 "completed" ;;
            setTransactionStep 2 "active" ;;
            result <- registerDomain domainName paymentMethod ;;
            setTransactionStep 2 "completed" ;;
            setTransactionStep 3 "active" ;;
            delay 2000%N ;;
            setTransactionStep 3 "completed" ;;
            setTransactionStep 4 "active" ;;
            delay 1000%N ;;
            updateTransactionStatus true "" (reg_network result) ;;
            newBalance <- getBalance ;;
            w <- get ;;
            match publicKey (walletManager w) with
            | Some _ => ret tt
            | None => throw (TypeError_reading "null" "toString")
            end)
           (fun registrationError =>
              updateTransactionStatus false (message registrationError) ""))
    (fun error =>
       showNotification (message error) "error" ;;
       hideTransactionStatus).

(** ** Reading a run back from the log *)

(** The successive states of the step elements. *)
Fixpoint step_states (l : list Event) : list Steps :=
  match l with
  | [] => []
  | EvSteps s :: l' => s :: step_states l'
  | _ :: l' => step_states l'
  end.

Definition is_active (s : Steps) (n : nat) : bool :=
  match step_at n s with Some el => cls_active el | None => false end.

(** The steps that are not active in [before] and active in [after]. *)
Definition activated (before after : Steps) : list nat :=
  filter (fun n => is_active after n && negb (is_active before n)) [1; 2; 3; 4].

(** The steps activated along a sequence of states, in order of occurrence. *)
Fixpoint activations (before : Steps) (states : list Steps) : list nat :=
  match states with
  | [] => []
  | s :: rest => (activated before s ++ activations s rest)%list
  end.

(** The steps that are active in a state. *)
Definition active_steps (s : Steps) : list nat :=
  filter (is_active s) [1; 2; 3; 4].

(** ** Vocabulary of the properties *)

(** [responsive h endpoint]: probed when the log is [h], the endpoint answers
    [getVersion] before the 3000 ms timer fires. *)
Definition responsive (h : list Event) (endpoint : string) : bool :=
  match race 3000%N (newError "Connection timeout") (getVersion env h endpoint) with
  | Normal _ => true
  | Throw _ => false
  end.

(** Probed one after the other starting from the log [h], none of the
    endpoints answers in time. *)
Fixpoint all_unresponsive (h : list Event) (endpoints : list string) : bool :=
  match endpoints with
  | [] => true
  | e :: rest =>
      negb (responsive h e) && all_unresponsive (h ++ [EvGetVersion e])%list rest
  end.

End Model.

(** The world after [checkDomainAvailability] has consulted the name service:
    the domain manager holds the wallet manager's connection and the lookup is
    on the log. *)
Definition after_lookup (name : string) (w : World) : World :=
  set_log (fun l => (l ++ [EvResolve (connection (walletManager w)) name])%list)
    (set_domainManager
       (fun _ => {| dm_connection := connection (walletManager w) |}) w).

(** The transaction handed to the wallet: the draft with the blockhash and
    the fee payer filled in. *)
Definition stamped (tx : Transaction) (bh : BlockhashInfo) (w : World) : Transaction :=
  {| instructions := instructions tx;
     recentBlockhash := Some (blockhash bh);
     feePayer := publicKey (walletManager w) |}.

(** A refusal by the user, as the wallet reports it. *)
Definition user_rejection (e : Error) : Prop :=
  code e = Some 4001%Z \/ includes (message e) "User rejected" = true.

(** An event of building, signing, broadcasting or confirming a transaction. *)
Definition is_transaction_event (e : Event) : bool :=
  match e with
  | EvGetLatestBlockhash _ | EvSignTransaction _
  | EvSendRawTransaction _ | EvConfirmTransaction _ => true
  | _ => false
  end.

(** An event that changes nothing on the progress panel. *)
Definition is_not_steps (e : Event) : bool :=
  match e with EvSteps _ => false | _ => true end.

(** [w'] is [w] after some more events, each satisfying [P]. *)
Definition only (P : Event -> bool) (w w' : World) : Prop :=
  exists added, log w' = (log w ++ added)%list /\ forallb P added = true.

(** [w'] is [w] with the same [UIManager] after some more events, each
    satisfying [P]. *)
Definition frame (P : Event -> bool) (w w' : World) : Prop :=
  uiManager w' = uiManager w /\ only P w w'.

(** No event of building, signing, broadcasting or confirming. *)
Definition no_transaction (e : Event) : bool := negb (is_transaction_event e).

(** Any event at all. *)
Definition any_event (e : Event) : bool := true.

(** [sg] is the base name with one of the three suffixes, it passes
    validation, and between [w0] and [w'] the availability check ran on it and
    reported it available at the price [sg] carries. *)
Definition suggestion_checked (env : Env) (baseDomain : string) (w0 w' : World)
    (sg : Suggestion) : Prop :=
  (exists suffix, In suffix ["1"; "2"; "x"] /\ sg_domain sg = baseDomain ++ suffix)
  /\ isValid (validateDomainName (sg_domain sg)) = true
  /\ exists wa wb a,
       only any_event w0 wa
       /\ checkDomainAvailability env (sg_domain sg) wa = (Normal (Some a), wb)
       /\ only any_event wb w'
       /\ success a = true /\ available a = true
       /\ exists basePrice networkFee network priceUSD,
            a = DomainAvailable (sg_domain sg) basePrice networkFee (sg_price sg)
                  network priceUSD.

(** Every run of [c] relates its start to its end by [R]. *)
Definition respects {A} (R : World -> World -> Prop) (c : M A) : Prop :=
  forall w r w', c w = (r, w') -> R w w'.

(** ** A scripted outside world, for running the model *)

Definition is_getBalance (e : Event) : bool :=
  match e with EvGetBalance _ _ => true | _ => false end.

(** The first main-net endpoint never answers and the others do after
    120 ms; the balance query fails twice and then reports [lamports]; the
    wallet answers a signing request with [signing]; the name [taken] has an
    owner and every other lookup throws; the wallet's own [disconnect] fails
    after emitting its ['disconnect'] event. *)
Definition scripted (lamports : float) (signing : outcome string) : Env := {|
  getVersion := fun _ endpoint =>
    if String.eqb endpoint "https://rpc.ankr.com/solana" then NeverSettles
    else Settles 120 (Fulfilled "1.18.22");
  getLatestBlockhash := fun _ _ =>
    Settles 80 (Fulfilled {| blockhash := "9xQeWvG8"; lastValidBlockHeight := 1000 |});
  signTransaction := fun _ _ => signing;
  sendRawTransaction := fun _ _ _ => Fulfilled "5VERv8NM";
  confirmTransaction := fun _ _ _ => Fulfilled "confirmed";
  rpc_getBalance := fun h _ _ =>
    if (List.length (filter is_getBalance h) <? 2)%nat
    then Rejected (newError "429 Too Many Requests")
    else Fulfilled lamports;
  wallet_disconnect := fun _ => (Rejected (newError "extension gone"), [OnDisconnect]);
  resolve := fun _ _ d =>
    if String.eqb d "taken" then Fulfilled (Some "Fg6PaFpo")
    else Rejected (newError "Account does not exist");
  clusterApiUrl := fun _ => "https://api.devnet.solana.com";
  Number_toString := fun _ => "n";
  Number_toFixed := fun _ _ => "n";
  Math_floor := fun x => x
|}.

(** A wallet holding 2 SOL that signs what it is asked to. *)
Definition stub : Env := scripted 2000000000%float (Fulfilled "signed-bytes").

(** A wallet holding 1000 lamports. *)
Definition poor : Env := scripted 1000%float (Fulfilled "signed-bytes").

(** A wallet whose user refuses to sign. *)
Definition refusing : Env :=
  scripted 2000000000%float
    (Rejected {| message := "User rejected the request."; code := Some 4001%Z |}).

Definition blank : StepEl :=
  {| cls_active := false; cls_completed := false; cls_error := false;
     step_status := HtmlNone |}.

(** A page with a connected wallet and the name [abc] selected. *)
Definition page : World := {|
  walletManager := {|
    wallet := Some WindowSolana;
    connection := Some {| rpcEndpoint := "https://api.devnet.solana.com";
                          commitment := "confirmed" |};
    publicKey := Some "7EcDhSYG";
    isConnected := true;
    currentNetwork := "devnet" |};
  domainManager := {| dm_connection := None |};
  uiManager := {|
    steps := {| step1 := blank; step2 := blank; step3 := blank; step4 := blank |};
    currentDomain := Some "abc";
    paymentMethod_value := "SOL";
    transactionStatus_hidden := true;
    transactionDetails_hidden := true |};
  log := []
|}.

(** The same page before the wallet is connected. *)
Definition page_disconnected : World :=
  set_walletManager
    (fun m => with_isConnected false (with_publicKey None (with_wallet None m)))
    page.

(** A transfer of one lamport, as a draft to sign. *)
Definition draft : Transaction :=
  {| instructions :=
       [{| fromPubkey := Some "7EcDhSYG";
           toPubkey := "11111111111111111111111111111112";
           lamports := 1%float |}];
     recentBlockhash := None;
     feePayer := None |}.


(* ================================================================== *)
(** * Further methods of the same classes *)

(** ** [UIManager]: strings *)

(** [s.slice(0, n)] for a length [n]. *)
Definition slice_first (s : string) (n : nat) : string := substring 0 n s.

(** [s.slice(-n)] for a length [n]: the last [n] characters, the whole string
    when it is shorter, and, as [-0] is [0], the whole string for [n = 0]. *)
Definition slice_last (s : string) (n : nat) : string :=
  if (n =? 0)%nat then s else substring (String.length s - n) n s.

(** [UIManager.formatAddress(address, startLength = 4, endLength = 4)] *)
Definition formatAddress (address : string) (startLength endLength : nat) : string :=
  if negb (truthy_string address)
     || (String.length address <? startLength + endLength)%nat
  then address
  else slice_first address startLength ++ "..." ++ slice_last address endLength.

(** [AdminPanel.formatAddress(address)], which has no guard. *)
Definition admin_formatAddress (address : string) : string :=
  slice_first address 4 ++ "..." ++ slice_last address 4.

(** [value.replace(/[^a-z0-9-]/g, '')] *)
Fixpoint remove_invalid (s : string) : string :=
  match s with
  | EmptyString => EmptyString
  | String c s' =>
      if validChar c then String c (remove_invalid s') else remove_invalid s'
  end.

(** [value.replace(/--+/g, '-')]: every maximal run of two or more hyphens
    becomes one hyphen. *)
Fixpoint collapse_hyphens (s : string) : string :=
  match s with
  | EmptyString => EmptyString
  | String c s' =>
      if Ascii.eqb c "-" && startsWith s' "-" then collapse_hyphens s'
      else String c (collapse_hyphens s')
  end.

(** [value.substring(1)] *)
Definition substring_from_1 (s : string) : string :=
  match s with
  | EmptyString => EmptyString
  | String _ s' => s'
  end.

(** What the ['input'] listener of the domain field writes back into the
    field.  [toLowerCase] is the built-in of the language, taken as given. *)
Definition sanitizeDomainInput (toLowerCase : string -> string) (value : string)
  : string :=
  let value := toLowerCase value in
  let value := remove_invalid value in
  let value := collapse_hyphens value in
  if startsWith value "-" then substring_from_1 value else value.

(** The built-in on strings of ASCII characters. *)
Definition ascii_toLowerCase_char (c : ascii) : ascii :=
  if in_range "A" "Z" c then ascii_of_N (N_of_ascii c + 32) else c.

Fixpoint ascii_toLowerCase (s : string) : string :=
  match s with
  | EmptyString => EmptyString
  | String c s' => String (ascii_toLowerCase_char c) (ascii_toLowerCase s')
  end.

(** ** [UIManager]: the form *)

Definition with_currentDomain (v : option string) (u : UIManager) :=
  {| steps := steps u; currentDomain := v;
     paymentMethod_value := paymentMethod_value u;
     transactionStatus_hidden := transactionStatus_hidden u;
     transactionDetails_hidden := transactionDetails_hidden u |}.

(** [resetForm]: of what it clears, the transaction panel and the selected
    domain are modelled. *)
Definition resetForm : M unit :=
  hideTransactionStatus ;;
  modify (set_uiManager (with_currentDomain None)).

(** ** [WalletManager]: connecting *)





Section MoreMethods.

Variable env : Env.

(** ** [WalletManager]: switching network and the devnet faucet *)

(** The objects [switchNetwork] returns: [{ success: true, message }] when
    already there, [{ success: true, message, network }] after a switch and
    [{ success: false, error }] after a failed one. *)
Inductive SwitchResult :=
| SwitchOk (message : string) (network : option string)
| SwitchFailed (error : string).

Definition switchNetwork (network : string) : M SwitchResult :=
  w <- get ;;
  if String.eqb (currentNetwork (walletManager w)) network then
    ret (SwitchOk ("Already on " ++ network) None)
  else
    try_catch
      (initializeConnection env network ;;
       w <- get ;;
       ret (SwitchOk ("Switched to " ++ network)
              (Some (currentNetwork (walletManager w)))))
      (fun error =>
         ret (SwitchFailed
                ("Failed to switch to " ++ network ++ ": " ++ message error))).

(** The object returned by [requestAirdrop]. *)
Record Airdrop := {
  ad_signature : string;
  ad_amount : float;
  ad_network : string
}.

(** [requestAirdrop(amount)].  [airdrop] is the fate of the one
    [connection.requestAirdrop(publicKey, amount * 1e9)] call. *)
Definition requestAirdrop (airdrop : outcome string) (amount : float) : M Airdrop :=
  w <- get ;;
  if negb (isConnected (walletManager w))
     || negb (is_some (publicKey (walletManager w)))
  then throw (newError "Wallet not connected")
  else if negb (String.eqb (currentNetwork (walletManager w)) "devnet")
  then throw (newError "Airdrops are only available on devnet")
  else
    try_catch
      (c <- the_connection "requestAirdrop" ;;
       signature <- await airdrop ;;
       c <- the_connection "confirmTransaction" ;;
       confirmed <- ask (EvConfirmTransaction signature)
                        (fun h => confirmTransaction env h c signature) ;;
       confirmation <- await confirmed ;;
       w <- get ;;
       ret {| ad_signature := signature;
              ad_amount := amount;
              ad_network := currentNetwork (walletManager w) |})
      (fun error => throw (newError ("Failed to get test SOL: " ++ message error))).

(** ** [SNSRegistrationApp.handleNetworkSwitch] *)

(** [showLoading], [hideLoading], [updateNetworkStatus] and
    [updateWalletButton] write to elements that are not modelled; of the
    latter's arguments, [this.walletManager.publicKey.toString()] throws when
    no key is held. *)
Definition handleNetworkSwitch (network : string) : M unit :=
  try_catch
    (result <- switchNetwork network ;;
     match result with
     | SwitchOk message _ =>
         showNotification message "success" ;;
         w <- get ;;
         (if isConnected (walletManager w) then
            balance <- getBalance env ;;
            w <- get ;;
            match publicKey (walletManager w) with
            | Some _ => ret tt
            | None => throw (TypeError_reading "null" "toString")
            end
          else ret tt) ;;
         resetForm
     | SwitchFailed error => showNotification error "error"
     end)
    (fun error =>
       showNotification
         ("Failed to switch to " ++ network ++ ": " ++ message error) "error").

End MoreMethods.

(** ** [SNSRegistrationApp.handleWalletConnection] *)


(** ** More vocabulary *)

(** The fields of [WalletManager] are as they were. *)
Definition session_kept (w w' : World) : Prop :=
  walletManager w' = walletManager w.

Definition is_notification (e : Event) : bool :=
  match e with EvNotification _ _ => true | _ => false end.

(** The notices shown to the user, in order. *)
Definition notifications (l : list Event) : list Event := filter is_notification l.

(** An event that is neither a state of the panel nor a notice. *)
Definition is_quiet (e : Event) : bool :=
  match e with
  | EvSteps _ | EvNotification _ _ => false
  | _ => true
  end.

(** What [handleDomainRegistration] does to the panel before it calls
    [registerDomain], and the page as it is at that call. *)
Definition registration_prelude : M unit :=
  showTransactionStatus ;;
  setTransactionStep 1 "active" ;;
  delay 1000%N ;;
  setTransactionStep 1 "completed" ;;
  setTransactionStep 2 "active".

Definition at_registration (w : World) : World := snd (registration_prelude w).

(** The classes of a step element that has been completed. *)
Definition is_completed (el : StepEl) : Prop :=
  cls_completed el = true /\ cls_active el = false.

(** The classes of a step element that was never reached. *)
Definition is_untouched (el : StepEl) : Prop :=
  cls_completed el = false /\ cls_active el = false.

(** The session is torn down. *)
Definition disconnected (w : World) : Prop :=
  isConnected (walletManager w) = false
  /\ publicKey (walletManager w) = None
  /\ wallet (walletManager w) = None.

(** ** More pages of the scripted world *)

(** The connected page before any endpoint was selected. *)
Definition page_offline : World :=
  set_walletManager (with_connection None) page.

(** The page after a registration the user refused. *)
Definition page_after_refusal : World :=
  snd (handleDomainRegistration refusing page).


(* ================================================================== *)
(** * Properties of the string primitives *)

Lemma startsWith_spec s p :
  startsWith s p = true <-> exists t, s = p ++ t.
Proof.
  unfold startsWith. revert s.
  induction p as [|a p IH]; intros s; simpl.
  - split; [intros _; exists s; reflexivity | intros _; now destruct s].
  - destruct s as [|b s]; simpl.
    + split; [discriminate | intros [t H]; discriminate].
    + destruct (ascii_dec a b) as [->|Hne].
      * rewrite IH. split; intros [t H]; exists t.
        -- now rewrite H.
        -- now inversion H.
      * split; [discriminate | intros [t H]; inversion H; congruence].
Qed.

Lemma endsWith_spec s p :
  endsWith s p = true <-> exists l, s = l ++ p.
Proof.
  induction s as [|a s IH]; cbn [endsWith].
  - rewrite orb_false_r. split.
    + intros H. destruct p; [now exists "" | discriminate].
    + intros [l H]. destruct l; simpl in H; [|discriminate].
      subst p. reflexivity.
  - rewrite orb_true_iff, IH. split.
    + intros [H|[l H]].
      * apply String.eqb_eq in H. exists "". now subst.
      * exists (String a l). simpl. now rewrite H.
    + intros [l H]. destruct l as [|b l]; simpl in H.
      * left. subst p. apply String.eqb_refl.
      * right. inversion H. now exists l.
Qed.

Lemma includes_spec s p :
  includes s p = true <-> exists l t, s = l ++ p ++ t.
Proof.
  induction s as [|a s IH]; cbn [includes].
  - rewrite orb_false_r. fold (startsWith "" p). rewrite startsWith_spec. split.
    + intros [t H]. exists "", t. exact H.
    + intros [l [t H]]. destruct l; simpl in H; [now exists t | discriminate].
  - rewrite orb_true_iff, IH.
    change (String.prefix p (String a s)) with (startsWith (String a s) p).
    rewrite startsWith_spec. split.
    + intros [[t H]|[l [t H]]].
      * exists "", t. exact H.
      * exists (String a l), t. simpl. now rewrite H.
    + intros [l [t H]]. destruct l as [|b l]; simpl in H.
      * left. now exists t.
      * right. inversion H. now exists l, t.
Qed.

(* ================================================================== *)
(** * Validator *)

Lemma in_range_spec lo hi c :
  in_range lo hi c = true <->
  nat_of_ascii lo <= nat_of_ascii c <= nat_of_ascii hi.
Proof.
  unfold in_range, nat_of_ascii.
  rewrite andb_true_iff, !N.leb_le. lia.
Qed.

Lemma validChar_spec c : validChar c = true <-> allowed c.
Proof.
  unfold validChar, allowed.
  rewrite !orb_true_iff, !in_range_spec, Ascii.eqb_eq.
  change (nat_of_ascii "a") with 97. change (nat_of_ascii "z") with 122.
  change (nat_of_ascii "0") with 48. change (nat_of_ascii "9") with 57.
  tauto.
Qed.

Lemma forallb_false_witness {A} (f : A -> bool) (l : list A) :
  forallb f l = false <-> exists x, In x l /\ f x = false.
Proof.
  induction l as [|a l IH]; simpl.
  - split; [discriminate | intros [x [[] _]]].
  - rewrite andb_false_iff, IH. split.
    + intros [H|[x [Hin H]]]; [exists a | exists x]; auto.
    + intros [x [[->|Hin] H]]; [left | right; exists x]; auto.
Qed.

Lemma violatesb_spec r d : violatesb r d = true <-> violates r d.
Proof.
  destruct r; simpl.
  - destruct d; simpl; split; congruence.
  - apply Nat.ltb_lt.
  - rewrite negb_true_iff, forallb_false_witness.
    split; intros [c [Hin H]]; exists c; split; auto.
    + rewrite <- validChar_spec. congruence.
    + rewrite <- validChar_spec in H. now destruct (validChar c).
  - rewrite orb_true_iff, startsWith_spec, endsWith_spec. reflexivity.
  - apply includes_spec.
Qed.

Lemma violatesb_false r d : violatesb r d = false <-> ~ violates r d.
Proof.
  rewrite <- violatesb_spec. destruct (violatesb r d); split; congruence.
Qed.

(** The body of [validateDomainName] is a cascade over the five rules: the
    [length < 1] test can only fire on a string the first test has caught. *)
Lemma validateDomainName_cascade d :
  validateDomainName d =
  match first_violation d with
  | Some r => invalid (reason r)
  | None => {| isValid := true; error := None |}
  end.
Proof.
  unfold validateDomainName, validCharRegex_test, first_violation, rules.
  cbn [find violatesb].
  destruct d as [|a d]; [reflexivity|].
  cbn [truthy_string negb andb String.length Nat.ltb Nat.leb].
  repeat match goal with
         | |- context [if ?b then _ else _] => destruct b; try reflexivity
         end.
Qed.

Lemma reason_nonempty r : reason r <> "".
Proof. destruct r; discriminate. Qed.

Lemma reason_injective r r' : reason r = reason r' -> r = r'.
Proof. destruct r, r'; simpl; intros H; try reflexivity; discriminate H. Qed.

Ltac decide_rules d :=
  unfold first_violation, rules; cbn [find];
  destruct (violatesb RuleEmpty d) eqn:E0;
    [|destruct (violatesb RuleTooLong d) eqn:E1;
      [|destruct (violatesb RuleCharset d) eqn:E2;
        [|destruct (violatesb RuleEdgeHyphen d) eqn:E3;
          [|destruct (violatesb RuleDoubleHyphen d) eqn:E4]]]];
  repeat match goal with
         | E : violatesb _ d = true |- _ => apply violatesb_spec in E
         | E : violatesb _ d = false |- _ => apply violatesb_false in E
         end.

Lemma first_violation_Some d r :
  first_violation d = Some r <->
  violates r d /\ forall r', rank r' < rank r -> ~ violates r' d.
Proof.
  decide_rules d; split;
    try (intros H;
         first [ discriminate H
               | injection H as <-;
                 (split;
                  [ assumption
                  | intros r' Hlt; destruct r'; simpl in Hlt; try lia;
                    assumption ]) ]);
    intros [Hv Hearlier]; destruct r; try reflexivity; try contradiction;
    exfalso;
    match goal with
    | Hw : violates ?r0 d |- _ =>
        apply (Hearlier r0); [simpl; lia | exact Hw]
    end.
Qed.

Lemma first_violation_None d :
  first_violation d = None <-> forall r, ~ violates r d.
Proof.
  decide_rules d; split;
    try (intros H; discriminate H);
    try (intros _ r; destruct r; assumption);
    try reflexivity;
    intros H; exfalso;
    match goal with
    | Hw : violates ?r0 d |- _ => exact (H r0 Hw)
    end.
Qed.

(** C3: [validateDomainName] applies the five rules in the order empty, longer
    than 32, character outside [[a-z0-9-]], leading or trailing hyphen,
    doubled hyphen; the first rule a candidate violates decides the (non-empty)
    reason it is rejected with, and a candidate violating none is valid.  The
    function is a closed term over its argument: it reads and writes no state. *)
Theorem validateDomainName_first_failure_wins (d : string) :
  (forall r, validateDomainName d = invalid (reason r) <->
             violates r d /\ forall r', rank r' < rank r -> ~ violates r' d)
  /\ (validateDomainName d = {| isValid := true; error := None |} <->
      forall r, ~ violates r d)
  /\ (isValid (validateDomainName d) = false ->
      exists r, violates r d /\ error (validateDomainName d) = Some (reason r)
                /\ reason r <> "").
Proof.
  rewrite validateDomainName_cascade. split; [|split].
  - intros r. rewrite <- first_violation_Some.
    destruct (first_violation d) as [r0|]; split; intros H.
    + injection H as H. now apply reason_injective in H; subst.
    + now injection H as <-.
    + discriminate H.
    + discriminate H.
  - rewrite <- first_violation_None.
    destruct (first_violation d); split; intros H; try discriminate H; reflexivity.
  - destruct (first_violation d) as [r0|] eqn:E; intros H; [|discriminate H].
    exists r0. apply first_violation_Some in E.
    repeat split; [tauto | apply reason_nonempty].
Qed.

(* ================================================================== *)
(** * Pricer *)

Lemma calculatePrice_long name :
  5 <= String.length name -> calculatePrice name = 0.02%float.
Proof.
  unfold calculatePrice. generalize (String.length name) as n. intros n H.
  do 5 (destruct n as [|n]; [lia|]). reflexivity.
Qed.

(* ================================================================== *)
(** * Running the monad *)

(** Unfolds the plumbing of the monad and the field accesses, and nothing of
    the methods themselves. *)
Ltac js :=
  cbv beta iota zeta delta
      [bind ret throw get modify emit attempt try_catch try_finally complete
       await ask delay dispatchEvent the_connection getCurrentNetwork
       set_log set_walletManager set_domainManager set_uiManager
       with_wallet with_connection with_publicKey with_isConnected
       with_currentNetwork];
  cbn [log walletManager domainManager uiManager
       wallet connection publicKey isConnected currentNetwork dm_connection
       negb orb andb is_some fst snd Nat.eqb].

Section Properties.

Variable env : Env.


Lemma checkDomainAvailability_invalid name w :
  isValid (validateDomainName name) = false ->
  checkDomainAvailability env name w =
  (Normal (Some (CheckFailed
     match error (validateDomainName name) with Some e => e | None => "" end)), w).
Proof.
  intros H. unfold checkDomainAvailability, try_catch, attempt, bind.
  rewrite H. reflexivity.
Qed.

Lemma checkDomainAvailability_run name w :
  isValid (validateDomainName name) = true ->
  checkDomainAvailability env name w =
  (Normal
     match resolve env (log w) (connection (walletManager w)) name with
     | Fulfilled (Some owner) =>
         Some (DomainTaken name owner (currentNetwork (walletManager w)))
     | Fulfilled None => None
     | Rejected _ =>
         Some (DomainAvailable name (calculatePrice name) networkFee
                 (calculatePrice name + networkFee)%float
                 (currentNetwork (walletManager w))
                 (convertSOLToUSD env (calculatePrice name + networkFee)%float))
     end,
   after_lookup name w).
Proof.
  intros H. unfold checkDomainAvailability, try_catch, attempt, bind.
  rewrite H. cbn [negb].
  unfold ask, await, get, modify, getCurrentNetwork, bind, ret, throw. cbn.
  destruct (resolve env (log w) (connection (walletManager w)) name) as [[owner|]|e];
    reflexivity.
Qed.

(** C1: for a name that passes validation, a lookup that throws yields a
    successful result marked available with the quote (base price of the
    name, network fee 0.001, their sum), and a lookup that returns an owner
    yields a successful result marked unavailable carrying that owner. *)
Theorem checkDomainAvailability_absence_is_available (name : string) (w : World) :
  isValid (validateDomainName name) = true ->
  (forall e, resolve env (log w) (connection (walletManager w)) name = Rejected e ->
     exists a,
       checkDomainAvailability env name w = (Normal (Some a), after_lookup name w)
       /\ success a = true /\ available a = true
       /\ a = DomainAvailable name (calculatePrice name) 0.001%float
                (calculatePrice name + 0.001)%float
                (currentNetwork (walletManager w))
                (Number_toFixed env ((calculatePrice name + 0.001) * 100)%float 2))
  /\ (forall owner,
        resolve env (log w) (connection (walletManager w)) name
          = Fulfilled (Some owner) ->
        exists a,
          checkDomainAvailability env name w = (Normal (Some a), after_lookup name w)
          /\ success a = true /\ available a = false
          /\ a = DomainTaken name owner (currentNetwork (walletManager w))).
Proof.
  intros Hvalid. split.
  - intros e He. eexists. rewrite (checkDomainAvailability_run _ _ Hvalid), He.
    repeat split.
  - intros owner Ho. eexists. rewrite (checkDomainAvailability_run _ _ Hvalid), Ho.
    repeat split.
Qed.

(** When the lookup answers without an owner and without throwing, no
    [return] is reached and the method yields [undefined]. *)
Lemma checkDomainAvailability_no_owner name w :
  isValid (validateDomainName name) = true ->
  resolve env (log w) (connection (walletManager w)) name = Fulfilled None ->
  checkDomainAvailability env name w = (Normal None, after_lookup name w).
Proof.
  intros Hvalid H. now rewrite (checkDomainAvailability_run _ _ Hvalid), H.
Qed.

(** C2: the base price is the tier table by length (1: 0.05, 2: 0.05, 3: 0.1,
    4: 0.05, 5 and more: 0.02); a quote carries that base, the fee 0.001 and
    their sum as total; a 3-character name costs more than a 2-character and
    than a 4-character one. *)
Theorem calculatePrice_tier_table (name : string) :
  (String.length name = 1 -> calculatePrice name = 0.05%float)
  /\ (String.length name = 2 -> calculatePrice name = 0.05%float)
  /\ (String.length name = 3 -> calculatePrice name = 0.1%float)
  /\ (String.length name = 4 -> calculatePrice name = 0.05%float)
  /\ (5 <= String.length name -> calculatePrice name = 0.02%float)
  /\ (forall w a w',
        checkDomainAvailability env name w = (Normal (Some a), w') ->
        available a = true ->
        exists network usd,
          a = DomainAvailable name (calculatePrice name) 0.001%float
                (calculatePrice name + 0.001)%float network usd)
  /\ (forall n2 n4,
        String.length name = 3 -> String.length n2 = 2 -> String.length n4 = 4 ->
        PrimFloat.ltb (calculatePrice n2) (calculatePrice name) = true
        /\ PrimFloat.ltb (calculatePrice n4) (calculatePrice name) = true).
Proof.
  repeat split.
  1-4: unfold calculatePrice; intros ->; reflexivity.
  - apply calculatePrice_long.
  - intros w a w' Hrun Hav.
    destruct (isValid (validateDomainName name)) eqn:Hvalid.
    + rewrite (checkDomainAvailability_run _ _ Hvalid) in Hrun.
      injection Hrun as Ha _.
      destruct (resolve env (log w) (connection (walletManager w)) name)
        as [[owner|]|e]; try discriminate Ha; injection Ha as <-;
        try discriminate Hav.
      eexists _, _. reflexivity.
    + rewrite (checkDomainAvailability_invalid _ _ Hvalid) in Hrun.
      injection Hrun as <- _. discriminate Hav.
  - unfold calculatePrice. rewrite H, H0. reflexivity.
  - unfold calculatePrice. rewrite H, H1. reflexivity.
Qed.

End Properties.

(* ================================================================== *)
(** * What a method leaves untouched *)

Section Frame.

Variable P : Event -> bool.

Lemma only_refl w : only P w w.
Proof. exists []. now rewrite app_nil_r. Qed.

Lemma only_trans w1 w2 w3 : only P w1 w2 -> only P w2 w3 -> only P w1 w3.
Proof.
  intros [a1 [L1 F1]] [a2 [L2 F2]]. exists (a1 ++ a2)%list.
  rewrite L2, L1, app_assoc, forallb_app, F1, F2. now split.
Qed.

Lemma frame_refl w : frame P w w.
Proof. split; [reflexivity | apply only_refl]. Qed.

Lemma frame_trans w1 w2 w3 : frame P w1 w2 -> frame P w2 w3 -> frame P w1 w3.
Proof.
  intros [U1 O1] [U2 O2]. split; [congruence | eapply only_trans; eauto].
Qed.

Lemma respects_ret {A} (a : A) : respects (frame P) (ret a).
Proof. intros w r w' H. injection H as _ <-. apply frame_refl. Qed.

Lemma respects_throw {A} e : respects (frame P) (@throw A e).
Proof. intros w r w' H. injection H as _ <-. apply frame_refl. Qed.

Lemma respects_get : respects (frame P) get.
Proof. intros w r w' H. injection H as _ <-. apply frame_refl. Qed.

Lemma respects_bind {A B} (c : M A) (k : A -> M B) :
  respects (frame P) c -> (forall a, respects (frame P) (k a)) ->
  respects (frame P) (bind c k).
Proof.
  intros Hc Hk w r w' H. unfold bind in H.
  destruct (c w) as [[a|e] w1] eqn:E; apply Hc in E.
  - eapply frame_trans; [exact E | eapply Hk; exact H].
  - now injection H as _ <-.
Qed.

Lemma respects_attempt {A} (c : M A) :
  respects (frame P) c -> respects (frame P) (attempt c).
Proof.
  intros Hc w r w' H. unfold attempt in H.
  destruct (c w) as [r1 w1] eqn:E. injection H as _ <-. eapply Hc; eauto.
Qed.

Lemma respects_try_catch {A} (c : M A) handler :
  respects (frame P) c -> (forall e, respects (frame P) (handler e)) ->
  respects (frame P) (try_catch c handler).
Proof.
  intros Hc Hh. unfold try_catch. apply respects_bind.
  - now apply respects_attempt.
  - intros [a|e]; [apply respects_ret | apply Hh].
Qed.

Lemma respects_complete {A} (r : completion A) : respects (frame P) (complete r).
Proof. destruct r; [apply respects_ret | apply respects_throw]. Qed.

Lemma respects_await {A} (o : outcome A) : respects (frame P) (await o).
Proof. destruct o; [apply respects_ret | apply respects_throw]. Qed.

Lemma respects_modify_walletManager f :
  respects (frame P) (modify (set_walletManager f)).
Proof.
  intros w r w' H. injection H as _ <-.
  split; [reflexivity | exists []; cbn; now rewrite app_nil_r].
Qed.

Lemma respects_modify_domainManager f :
  respects (frame P) (modify (set_domainManager f)).
Proof.
  intros w r w' H. injection H as _ <-.
  split; [reflexivity | exists []; cbn; now rewrite app_nil_r].
Qed.

Lemma respects_ask {A} ev (answer : list Event -> A) :
  P ev = true -> respects (frame P) (ask ev answer).
Proof.
  intros Hev w r w' H. injection H as _ <-. split; [reflexivity|].
  exists [ev]. cbn. now rewrite Hev.
Qed.

Lemma respects_emit ev : P ev = true -> respects (frame P) (emit ev).
Proof.
  intros Hev w r w' H. injection H as _ <-. split; [reflexivity|].
  exists [ev]. cbn. now rewrite Hev.
Qed.

End Frame.

Ltac frame_step :=
  match goal with
  | |- respects _ (bind _ _) => apply respects_bind; [|intros ?]
  | |- respects _ (ret _) => apply respects_ret
  | |- respects _ (throw _) => apply respects_throw
  | |- respects _ get => apply respects_get
  | |- respects _ (attempt _) => apply respects_attempt
  | |- respects _ (try_catch _ _) => apply respects_try_catch; [|intros ?]
  | |- respects _ (complete _) => apply respects_complete
  | |- respects _ (await _) => apply respects_await
  | |- respects _ (modify (set_walletManager _)) =>
      apply respects_modify_walletManager
  | |- respects _ (modify (set_domainManager _)) =>
      apply respects_modify_domainManager
  | |- respects _ (ask _ _) => apply respects_ask; auto
  | |- respects _ (emit _) => apply respects_emit; auto
  | |- respects _ (delay _) => apply respects_emit; auto
  | |- respects _ (dispatchEvent _) => apply respects_emit; auto
  | |- respects _ (if ?b then _ else _) => destruct b
  | |- respects _ (match ?x with _ => _ end) => destruct x
  end.

Section FrameOfMethods.

Variable env : Env.
Variable P : Event -> bool.

Hypothesis P_resolve : forall c d, P (EvResolve c d) = true.
Hypothesis P_getBalance : forall c pk, P (EvGetBalance c pk) = true.
Hypothesis P_setTimeout : forall ms, P (EvSetTimeout ms) = true.

Lemma checkDomainAvailability_frame name :
  respects (frame P) (checkDomainAvailability env name).
Proof.
  unfold checkDomainAvailability, getCurrentNetwork. repeat frame_step.
Qed.

Lemma getBalance_frame : respects (frame P) (getBalance env).
Proof.
  unfold getBalance, getBalance_loop, fetchBalance, the_connection.
  repeat frame_step.
Qed.

Hypothesis P_getLatestBlockhash : forall c, P (EvGetLatestBlockhash c) = true.
Hypothesis P_signTransaction : forall tx, P (EvSignTransaction tx) = true.
Hypothesis P_sendRawTransaction : forall raw, P (EvSendRawTransaction raw) = true.
Hypothesis P_confirmTransaction : forall sg, P (EvConfirmTransaction sg) = true.

Lemma signAndSendTransaction_frame tx :
  respects (frame P) (signAndSendTransaction env tx).
Proof.
  unfold signAndSendTransaction, the_connection. repeat frame_step.
Qed.

Lemma registerDomain_frame name pm :
  respects (frame P) (registerDomain env name pm).
Proof.
  unfold registerDomain, getCurrentNetwork, getExplorerUrl.
  repeat first [ apply checkDomainAvailability_frame
               | apply getBalance_frame
               | apply signAndSendTransaction_frame
               | frame_step ].
Qed.

End FrameOfMethods.

Section WalletProperties.

Variable env : Env.

(* ================================================================== *)
(** * Wallet session: [disconnect] *)

Lemma onWalletEvent_run e w :
  exists w', onWalletEvent e w = (Normal tt, w')
             /\ exists added, log w' = (log w ++ added)%list.
Proof.
  destruct e as [pk| |[pk|]]; eexists; (split; [reflexivity|]); cbn;
    eexists; reflexivity.
Qed.

Lemma onWalletEvents_run es w :
  exists w', onWalletEvents es w = (Normal tt, w')
             /\ exists added, log w' = (log w ++ added)%list.
Proof.
  revert w. induction es as [|e es IH]; intros w; cbn [onWalletEvents].
  - exists w. split; [reflexivity|]. exists []. now rewrite app_nil_r.
  - destruct (onWalletEvent_run e w) as [w1 [H1 [a1 L1]]].
    destruct (IH w1) as [w2 [H2 [a2 L2]]].
    exists w2. unfold bind. rewrite H1, H2. split; [reflexivity|].
    exists (a1 ++ a2)%list. now rewrite L2, L1, app_assoc.
Qed.

(** C8: [disconnect] returns normally with [isConnected] false and
    [publicKey] and [wallet] cleared, whatever the wallet's own [disconnect]
    does (fulfils, rejects, emits events meanwhile); the wallet is notified
    exactly when one is held and connected. *)
Theorem disconnect_is_unconditional (w : World) :
  exists w',
    disconnect env w = (Normal tt, w')
    /\ isConnected (walletManager w') = false
    /\ publicKey (walletManager w') = None
    /\ wallet (walletManager w') = None
    /\ (exists added,
          log w' = (log w ++ added ++ [EvDispatch "walletDisconnected"])%list
          /\ (In EvWalletDisconnect added <->
              is_some (wallet (walletManager w)) && isConnected (walletManager w)
              = true)
          /\ (added = [] \/ exists rest, added = EvWalletDisconnect :: rest)).
Proof.
  unfold disconnect, try_finally, try_catch, attempt, bind, get.
  destruct (is_some (wallet (walletManager w)) && isConnected (walletManager w))
    eqn:Hheld.
  - unfold await_wallet_disconnect, ask, bind.
    destruct (wallet_disconnect env (log w)) as [answer es]. cbn [fst snd].
    destruct (onWalletEvents_run es
                (set_log (fun l => (l ++ [EvWalletDisconnect])%list) w))
      as [w1 [H1 [added L1]]].
    rewrite H1. cbn [log set_log] in L1.
    destruct answer as [[]|e]; cbn; (eexists; split; [reflexivity|]);
      cbn; repeat (split; [reflexivity|]);
      exists (EvWalletDisconnect :: added);
      (split; [rewrite L1, <- !app_assoc; reflexivity|]);
      (split; [split; [reflexivity | intros _; now left] | right; now eexists]).
  - cbn. eexists; split; [reflexivity|]. cbn. repeat (split; [reflexivity|]).
    exists []. split; [reflexivity|].
    split; [split; [intros [] | discriminate] | now left].
Qed.

(* ================================================================== *)
(** * Wallet session: [signAndSendTransaction] *)


Lemma classify_user_rejection e :
  user_rejection e ->
  classifyTransactionError e = newError "Transaction rejected by user".
Proof.
  unfold classifyTransactionError. intros [H|H]; rewrite H.
  - now rewrite orb_true_r.
  - reflexivity.
Qed.

(** C9: unless the session is connected and holds a wallet,
    [signAndSendTransaction] throws "Wallet not connected" and leaves the
    world, log included, as it was; when connected, a blockhash that does not
    arrive within 10000 ms and a refusal by the user end in two different
    errors, the first after the blockhash request alone, the second after the
    signing request and before anything is sent. *)
Theorem signAndSendTransaction_error_kinds (tx : Transaction) (w : World) :
  (isConnected (walletManager w) = false \/ wallet (walletManager w) = None ->
   signAndSendTransaction env tx w = (Throw (newError "Wallet not connected"), w))
  /\ (forall c,
        isConnected (walletManager w) = true ->
        wallet (walletManager w) <> None ->
        connection (walletManager w) = Some c ->
        (getLatestBlockhash env (log w) c = NeverSettles
         \/ exists ms o, getLatestBlockhash env (log w) c = Settles ms o
                         /\ (10000 <= ms)%N) ->
        signAndSendTransaction env tx w =
        (Throw (newError "Transaction timed out. Please try again."),
         set_log (fun l => (l ++ [EvGetLatestBlockhash c])%list) w))
  /\ (forall c ms bh e,
        isConnected (walletManager w) = true ->
        wallet (walletManager w) <> None ->
        connection (walletManager w) = Some c ->
        getLatestBlockhash env (log w) c = Settles ms (Fulfilled bh) ->
        (ms < 10000)%N ->
        signTransaction env (log w ++ [EvGetLatestBlockhash c])%list (stamped tx bh w)
          = Rejected e ->
        user_rejection e ->
        signAndSendTransaction env tx w =
        (Throw (newError "Transaction rejected by user"),
         set_log (fun l => (l ++ [EvGetLatestBlockhash c;
                                  EvSignTransaction (stamped tx bh w)])%list) w))
  /\ newError "Transaction timed out. Please try again."
     <> newError "Transaction rejected by user".
Proof.
  split; [|split; [|split]].
  - unfold signAndSendTransaction, bind, get. intros [H|H]; rewrite H.
    + reflexivity.
    + now rewrite orb_true_r.
  - intros c Hc Hw Hconn Hlate.
    unfold signAndSendTransaction. js. rewrite Hc.
    destruct (wallet (walletManager w)) as [wal|]; [|congruence].
    js. rewrite Hconn. js.
    destruct Hlate as [H|[ms [o [H Hms]]]]; rewrite H; cbn [race].
    + reflexivity.
    + apply N.ltb_ge in Hms. destruct o; rewrite Hms; reflexivity.
  - intros c ms bh e Hc Hw Hconn Hbh Hms Hsign Hrej.
    unfold signAndSendTransaction. js. rewrite Hc.
    destruct (wallet (walletManager w)) as [wal|]; [|congruence].
    js. rewrite Hconn. js. rewrite Hbh. cbn [race].
    apply N.ltb_lt in Hms. rewrite Hms. js.
    unfold stamped in *. rewrite Hsign. js.
    rewrite (classify_user_rejection _ Hrej).
    unfold set_log. cbn [log walletManager domainManager uiManager].
    rewrite <- app_assoc. reflexivity.
  - discriminate.
Qed.

(* ================================================================== *)
(** * Wallet session: [getBalance] *)

(** C7: [getBalance] never throws and always yields a number.  With a
    connected session it queries the balance at most three times, pausing
    1000 ms after the first and after the second failure; the first query
    that succeeds decides the result (its value divided by 1e9), and when
    all three fail the result is 0. *)
Theorem getBalance_retry_policy (w : World) :
  (exists b w', getBalance env w = (Normal (Some b), w'))
  /\ (forall c pk,
        isConnected (walletManager w) = true ->
        publicKey (walletManager w) = Some pk ->
        connection (walletManager w) = Some c ->
        let q := EvGetBalance c pk in
        let pause := EvSetTimeout 1000 in
        let h1 := log w in
        let h2 := (h1 ++ [q; pause])%list in
        let h3 := (h2 ++ [q; pause])%list in
        match rpc_getBalance env h1 c pk with
        | Fulfilled x =>
            getBalance env w =
            (Normal (Some (x / 1e9)%float), set_log (fun _ => (h1 ++ [q])%list) w)
        | Rejected _ =>
            match rpc_getBalance env h2 c pk with
            | Fulfilled x =>
                getBalance env w =
                (Normal (Some (x / 1e9)%float),
                 set_log (fun _ => (h2 ++ [q])%list) w)
            | Rejected _ =>
                match rpc_getBalance env h3 c pk with
                | Fulfilled x =>
                    getBalance env w =
                    (Normal (Some (x / 1e9)%float),
                     set_log (fun _ => (h3 ++ [q])%list) w)
                | Rejected _ =>
                    getBalance env w =
                    (Normal (Some 0%float),
                     set_log (fun _ => (h3 ++ [q])%list) w)
                end
            end
        end).
Proof.
  split.
  - unfold getBalance. js.
    destruct (isConnected (walletManager w)); [|eauto].
    destruct (publicKey (walletManager w)) as [pk|]; [|eauto].
    unfold getBalance_loop, fetchBalance. js.
    destruct (connection (walletManager w)) as [c|] eqn:Hconn; js.
    + repeat match goal with
             | |- context [rpc_getBalance env ?h c pk] =>
                 destruct (rpc_getBalance env h c pk); js; rewrite ?Hconn; js
             end; eauto.
    + rewrite ?Hconn; js. rewrite ?Hconn; js. eauto.
  - intros c pk Hc Hpk Hconn q pause h1 h2 h3. subst q pause h1 h2 h3.
    unfold getBalance. js. rewrite Hc, Hpk.
    unfold getBalance_loop, fetchBalance. js. rewrite Hconn. js.
    rewrite <- !app_assoc. cbn [app].
    repeat match goal with
           | |- context [match rpc_getBalance env ?h c pk with _ => _ end] =>
               destruct (rpc_getBalance env h c pk); js; rewrite ?Hconn; js;
               rewrite <- ?app_assoc; cbn [app]
           end; reflexivity.
Qed.

(* ================================================================== *)
(** * Connection selector: [initializeConnection] *)

(** The page once [endpoint] has been selected. *)
Lemma probeEndpoint_responsive endpoint w :
  responsive env (log w) endpoint = true ->
  probeEndpoint env endpoint w =
  (Normal tt,
   set_log (fun l => (l ++ [EvGetVersion endpoint; EvDispatch "networkChanged"])%list)
     (set_walletManager
        (with_connection
           (Some {| rpcEndpoint := endpoint; commitment := "confirmed" |})) w)).
Proof.
  unfold responsive, probeEndpoint. js.
  destruct (race 3000 (newError "Connection timeout")
              (getVersion env (log w) endpoint)); [|discriminate].
  intros _. js. rewrite <- ?app_assoc. reflexivity.
Qed.

Lemma probeEndpoint_unresponsive endpoint w :
  responsive env (log w) endpoint = false ->
  exists error,
    probeEndpoint env endpoint w =
    (Throw error, set_log (fun l => (l ++ [EvGetVersion endpoint])%list) w).
Proof.
  unfold responsive, probeEndpoint. js.
  destruct (race 3000 (newError "Connection timeout")
              (getVersion env (log w) endpoint)) as [v|error]; [discriminate|].
  intros _. now exists error.
Qed.

Lemma selectEndpoint_skip network e rest w :
  responsive env (log w) e = false ->
  selectEndpoint env network (e :: rest) w =
  selectEndpoint env network rest (set_log (fun l => (l ++ [EvGetVersion e])%list) w).
Proof.
  intros H. destruct (probeEndpoint_unresponsive _ _ H) as [error Hp].
  cbn [selectEndpoint]. unfold bind, attempt. now rewrite Hp.
Qed.

Lemma selectEndpoint_selects network pre : forall e post w,
  all_unresponsive env (log w) pre = true ->
  responsive env (log w ++ map EvGetVersion pre) e = true ->
  selectEndpoint env network (pre ++ e :: post) w =
  (Normal tt,
   set_log (fun l => (l ++ map EvGetVersion pre
                        ++ [EvGetVersion e; EvDispatch "networkChanged"])%list)
     (set_walletManager
        (with_connection
           (Some {| rpcEndpoint := e; commitment := "confirmed" |})) w)).
Proof.
  induction pre as [|a pre IH]; intros e post w Hpre He.
  - cbn [map] in He. rewrite app_nil_r in He.
    cbn [app selectEndpoint map]. unfold bind, attempt.
    now rewrite (probeEndpoint_responsive _ _ He).
  - cbn [all_unresponsive] in Hpre. apply andb_true_iff in Hpre as [Ha Hpre].
    apply negb_true_iff in Ha.
    cbn [app]. rewrite (selectEndpoint_skip _ _ _ _ Ha).
    rewrite IH.
    + unfold set_log, set_walletManager. cbn. now rewrite <- app_assoc.
    + exact Hpre.
    + cbn [log set_log]. cbn [map] in He. now rewrite <- app_assoc.
Qed.

Lemma selectEndpoint_fails network endpoints : forall w,
  all_unresponsive env (log w) endpoints = true ->
  selectEndpoint env network endpoints w =
  (Throw (newError ("Failed to connect to " ++ network)),
   set_log (fun l => (l ++ map EvGetVersion endpoints)%list) w).
Proof.
  induction endpoints as [|a rest IH]; intros w H.
  - cbn. unfold throw, set_log. rewrite app_nil_r. now destruct w.
  - cbn [all_unresponsive] in H. apply andb_true_iff in H as [Ha H].
    apply negb_true_iff in Ha.
    rewrite (selectEndpoint_skip _ _ _ _ Ha), IH by exact H.
    unfold set_log. cbn. now rewrite <- app_assoc.
Qed.

Lemma all_unresponsive_or_first endpoints : forall h,
  all_unresponsive env h endpoints = true
  \/ exists pre e post,
       endpoints = (pre ++ e :: post)%list
       /\ all_unresponsive env h pre = true
       /\ responsive env (h ++ map EvGetVersion pre) e = true.
Proof.
  induction endpoints as [|a rest IH]; intros h.
  - now left.
  - cbn [all_unresponsive]. destruct (responsive env h a) eqn:Ha.
    + right. exists [], a, rest. cbn. now rewrite app_nil_r.
    + destruct (IH (h ++ [EvGetVersion a])%list) as [H|[pre [e [post [-> [H1 H2]]]]]].
      * now left.
      * right. exists (a :: pre), e, post. cbn [all_unresponsive map app].
        rewrite Ha, H1. rewrite <- app_assoc in H2. now repeat split.
Qed.

Lemma responsive_spec h e :
  responsive env h e = true <->
  exists ms v, getVersion env h e = Settles ms (Fulfilled v) /\ (ms < 3000)%N.
Proof.
  unfold responsive, race.
  destruct (getVersion env h e) as [ms [v|err]|].
  - destruct (N.ltb_spec ms 3000); split.
    + intros _. now exists ms, v.
    + reflexivity.
    + discriminate.
    + intros [ms' [v' [Heq Hlt]]]. injection Heq as -> _. lia.
  - destruct (ms <? 3000)%N; split; try discriminate;
      intros [ms' [v' [Heq _]]]; discriminate Heq.
  - split; [discriminate | intros [ms' [v' [Heq _]]]; discriminate Heq].
Qed.

(** C6: the candidates are probed one at a time in list order, each against
    a 3000 ms timer.  The first one that answers in time becomes the
    connection and nothing after it is probed; when none does, every
    candidate has been probed once, in order, and the call throws.  One of
    the two always happens. *)
Theorem selectEndpoint_first_responsive (network : string)
    (endpoints : list string) (w : World) :
  (forall pre e post,
     endpoints = (pre ++ e :: post)%list ->
     all_unresponsive env (log w) pre = true ->
     responsive env (log w ++ map EvGetVersion pre) e = true ->
     selectEndpoint env network endpoints w =
     (Normal tt,
      set_log (fun l => (l ++ map EvGetVersion pre
                           ++ [EvGetVersion e; EvDispatch "networkChanged"])%list)
        (set_walletManager
           (with_connection
              (Some {| rpcEndpoint := e; commitment := "confirmed" |})) w)))
  /\ (all_unresponsive env (log w) endpoints = true ->
      selectEndpoint env network endpoints w =
      (Throw (newError ("Failed to connect to " ++ network)),
       set_log (fun l => (l ++ map EvGetVersion endpoints)%list) w))
  /\ (all_unresponsive env (log w) endpoints = true
      \/ exists pre e post,
           endpoints = (pre ++ e :: post)%list
           /\ all_unresponsive env (log w) pre = true
           /\ responsive env (log w ++ map EvGetVersion pre) e = true)
  /\ (forall h e,
        responsive env h e = true <->
        exists ms v, getVersion env h e = Settles ms (Fulfilled v)
                     /\ (ms < 3000)%N).
Proof.
  split; [|split; [|split]].
  - intros pre e post -> Hpre He. now apply selectEndpoint_selects.
  - apply selectEndpoint_fails.
  - apply all_unresponsive_or_first.
  - apply responsive_spec.
Qed.

(** [initializeConnection] is the selector run on the list of the network. *)
Lemma initializeConnection_unfold network w :
  initializeConnection env network w =
  selectEndpoint env network (rpcEndpoints env network)
    (set_walletManager (with_currentNetwork network) w).
Proof. reflexivity. Qed.

End WalletProperties.

Section RegistrationProperties.

Variable env : Env.

(* ================================================================== *)
(** * Registration workflow: the balance check *)

Lemma no_transaction_frame_of_lookup name w :
  only no_transaction w (after_lookup name w).
Proof. eexists [_]. split; reflexivity. Qed.

(** C5: when the session is connected, the name is valid and found free, and
    the balance fetched next is strictly below the quoted total,
    [registerDomain] throws the insufficient-balance error, and between the
    call and the throw nothing is requested from the wallet or the network
    to build, sign, send or confirm a transaction. *)
Theorem registerDomain_insufficient_funds
    (name paymentMethod : string) (w : World) (e : Error) (b : float) (w2 : World) :
  isConnected (walletManager w) = true ->
  isValid (validateDomainName name) = true ->
  resolve env (log w) (connection (walletManager w)) name = Rejected e ->
  getBalance env (after_lookup name w) = (Normal (Some b), w2) ->
  PrimFloat.ltb b (calculatePrice name + networkFee)%float = true ->
  registerDomain env name paymentMethod w =
  (Throw (newError
            ("Insufficient balance. You need "
             ++ Number_toString env (calculatePrice name + networkFee)%float
             ++ " SOL but only have " ++ Number_toFixed env b 4 ++ " SOL")),
   w2)
  /\ only no_transaction w w2.
Proof.
  intros Hc Hvalid He Hbal Hlt. split.
  - unfold registerDomain. js. rewrite Hc, Hvalid. js.
    rewrite (checkDomainAvailability_run env _ _ Hvalid). js.
    rewrite He.
    change (after_lookup name _) with (after_lookup name w).
    rewrite Hbal, Hlt. reflexivity.
  - eapply only_trans; [apply no_transaction_frame_of_lookup|].
    apply (getBalance_frame env no_transaction) in Hbal; [apply Hbal | | ];
      reflexivity.
Qed.

(* ================================================================== *)
(** * Registration workflow: suggestions *)

Lemma suggestion_checked_later base w0 w w' sg :
  only any_event w w' ->
  suggestion_checked env base w0 w sg -> suggestion_checked env base w0 w' sg.
Proof.
  intros Hext [Hsuffix [Hvalid [wa [wb [a [H1 [H2 [H3 H4]]]]]]]].
  split; [exact Hsuffix | split; [exact Hvalid|]].
  exists wa, wb, a. repeat split; try tauto.
  eapply only_trans; eauto.
Qed.

Lemma searchSimilarDomains_loop_spec base w0 todo : forall acc w,
  incl todo suffixes ->
  only any_event w0 w ->
  Forall (suggestion_checked env base w0 w) acc ->
  exists l w',
    searchSimilarDomains_loop env base todo acc w = (Normal l, w')
    /\ only any_event w0 w'
    /\ Forall (suggestion_checked env base w0 w') l
    /\ List.length l <= List.length acc + List.length todo.
Proof.
  induction todo as [|suffix todo IH]; intros acc w Hincl Hw Hacc.
  - exists acc, w. cbn. repeat split; auto. lia.
  - assert (Hsuffix : In suffix suffixes) by (apply Hincl; now left).
    assert (Hincl' : incl todo suffixes) by (intros x Hx; apply Hincl; now right).
    cbn [searchSimilarDomains_loop].
    destruct (maxSuggestions <=? List.length acc)%nat.
    { exists acc, w. cbn. repeat split; auto. lia. }
    destruct (isValid (validateDomainName (base ++ suffix))) eqn:Hvalid.
    2:{ destruct (IH acc w Hincl' Hw Hacc) as [l [w' [H1 [H2 [H3 H4]]]]].
        exists l, w'. cbn [List.length]. repeat split; auto. lia. }
    unfold bind, attempt.
    destruct (checkDomainAvailability env (base ++ suffix) w) as [r w1] eqn:Hcheck.
    assert (Hw1 : only any_event w w1).
    { apply (checkDomainAvailability_frame env any_event) in Hcheck;
        [apply Hcheck | reflexivity]. }
    assert (Hw01 : only any_event w0 w1) by (eapply only_trans; eauto).
    assert (Hacc1 : Forall (suggestion_checked env base w0 w1) acc).
    { eapply Forall_impl; [|exact Hacc].
      intros sg. now apply suggestion_checked_later. }
    assert (Hskip : exists l w',
               searchSimilarDomains_loop env base todo acc w1 = (Normal l, w')
               /\ only any_event w0 w'
               /\ Forall (suggestion_checked env base w0 w') l
               /\ List.length l <= List.length acc + List.length (suffix :: todo)).
    { destruct (IH acc w1 Hincl' Hw01 Hacc1) as [l [w' [H1 [H2 [H3 H4]]]]].
      exists l, w'. cbn [List.length]. repeat split; auto. lia. }
    destruct r as [[a|]|err]; try exact Hskip.
    destruct a as [msg|d o n|d bp nf tp net usd]; try exact Hskip.
    pose proof Hcheck as Hrun.
    rewrite (checkDomainAvailability_run env _ _ Hvalid) in Hrun.
    injection Hrun as Ha _.
    assert (Hd : d = base ++ suffix).
    { destruct (resolve env (log w) (connection (walletManager w)) (base ++ suffix))
        as [[owner|]|e]; try discriminate Ha. now injection Ha. }
    subst d.
    destruct (IH (acc ++ [{| sg_domain := base ++ suffix; sg_price := tp |}])%list
                 w1 Hincl' Hw01) as [l [w' [H1 [H2 [H3 H4]]]]].
    { apply Forall_app. split; [exact Hacc1|]. constructor; [|constructor].
      split; [exists suffix; now split|]. split; [exact Hvalid|].
      exists w, w1, (DomainAvailable (base ++ suffix) bp nf tp net usd).
      repeat split; auto using only_refl. now exists bp, nf, net, usd. }
    exists l, w'. rewrite length_app in H4. cbn [List.length] in *.
    repeat split; auto. lia.
Qed.

(** C10: [searchSimilarDomains] returns, without throwing, at most 3
    suggestions; each is the base name followed by ['1'], ['2'] or ['x'],
    passes validation, was reported available by an availability check run
    during the call, and carries the total price of that check. *)
Theorem searchSimilarDomains_suggestions (baseDomain : string) (w : World) :
  exists l w',
    searchSimilarDomains env baseDomain w = (Normal l, w')
    /\ List.length l <= 3
    /\ Forall (suggestion_checked env baseDomain w w') l.
Proof.
  destruct (searchSimilarDomains_loop_spec baseDomain w suffixes [] w)
    as [l [w' [H1 [H2 [H3 H4]]]]].
  - apply incl_refl.
  - apply only_refl.
  - constructor.
  - exists l, w'. repeat split; auto.
Qed.

End RegistrationProperties.

Section StepProperties.

Variable env : Env.

(* ================================================================== *)
(** * Registration attempt: the progress steps *)

Lemma step_states_app l1 l2 :
  step_states (l1 ++ l2) = (step_states l1 ++ step_states l2)%list.
Proof.
  induction l1 as [|e l1 IH]; [reflexivity|].
  destruct e; cbn; now rewrite ?IH.
Qed.

Lemma step_states_silent l : forallb is_not_steps l = true -> step_states l = [].
Proof.
  induction l as [|e l IH]; [reflexivity|].
  cbn. intros H. apply andb_true_iff in H as [He Hl].
  destruct e; try discriminate He; now apply IH.
Qed.

Ltac ui :=
  lazy beta iota zeta delta
      [bind ret throw get modify emit attempt try_catch try_finally complete
       await ask delay dispatchEvent
       set_log set_walletManager set_domainManager set_uiManager
       with_steps with_transactionStatus_hidden with_transactionDetails_hidden
       showTransactionStatus resetTransactionSteps setTransactionStep forEach
       element write_step snapshot step_at put_step remove_active_completed
       showNotification hideTransactionStatus updateTransactionStatus
       getCurrentActiveStep firstActive
       String.eqb Ascii.eqb Bool.eqb Nat.eqb
       log walletManager domainManager uiManager steps
       step1 step2 step3 step4 cls_active cls_completed cls_error step_status
       currentDomain paymentMethod_value transactionStatus_hidden
       transactionDetails_hidden isConnected publicKey
       negb orb andb fst snd].

Ltac call_frame f lem r w :=
  let H := fresh "Hcall" in
  let Hui := fresh "Hui" in
  let Hlog := fresh "Hlog" in
  let added := fresh "added" in
  let Hsilent := fresh "Hsilent" in
  let wm := fresh "wm" in
  let dm := fresh "dm" in
  let um := fresh "um" in
  let lg := fresh "lg" in
  destruct f as [r [wm dm um lg]] eqn:H;
  apply lem in H; try reflexivity;
  destruct H as [Hui [added [Hlog Hsilent]]];
  cbn [uiManager log] in Hui, Hlog; subst um lg.

Ltac finish_attempt k :=
  eexists; eexists; split; [reflexivity|];
  ui; rewrite <- ?app_assoc; split; [reflexivity|];
  rewrite ?step_states_app;
  repeat match goal with
         | H : forallb is_not_steps ?l = true |- _ =>
             rewrite (step_states_silent l H)
         end;
  split;
  [ exists k; split; [tauto | reflexivity]
  | repeat constructor; cbn; lia ].

(** C4: one run of [handleDomainRegistration] returns normally, and along the
    successive states of the four step elements it produces, the steps that
    become active are, in order, a prefix of 1, 2, 3, 4 (none when the
    handler bails out before starting, 1 and 2 when [registerDomain] throws,
    all four when it returns), and no state has two active steps. *)
Theorem handleDomainRegistration_forward_only (w : World) :
  exists w' added,
    handleDomainRegistration env w = (Normal tt, w')
    /\ log w' = (log w ++ added)%list
    /\ (exists k,
          (k = 0 \/ k = 2 \/ k = 4)
          /\ activations (steps (uiManager w)) (step_states added)
             = firstn k [1; 2; 3; 4])
    /\ Forall (fun s => List.length (active_steps s) <= 1) (step_states added).
Proof.
  destruct w as [[wal conn pk ic net] dm [[s1 s2 s3 s4] cd pm th dh] lg].
  destruct s1, s2, s3, s4.
  unfold handleDomainRegistration.
  lazy beta iota zeta delta [try_catch attempt bind get isConnected walletManager
                             uiManager currentDomain].
  destruct ic; cbn [negb]; [|finish_attempt 0].
  destruct (truthy_string match cd with Some d => d | None => "" end);
    cbn [negb]; [|finish_attempt 0].
  ui.
  match goal with
  | |- context [registerDomain env ?d ?p ?W] =>
      call_frame (registerDomain env d p W)
                 (registerDomain_frame env is_not_steps) r w2
  end.
  destruct r as [reg|err]; ui; [|finish_attempt 2].
  match goal with
  | |- context [getBalance env ?W] =>
      call_frame (getBalance env W) (getBalance_frame env is_not_steps) rb w4
  end.
  destruct rb as [newBalance|err]; ui; [|finish_attempt 4].
  match goal with
  | |- context [match ?m with Build_WalletManager _ _ _ _ _ => _ end] =>
      destruct m as [? ? [pk4|] ? ?]
  end; ui; finish_attempt 4.
Qed.

End StepProperties.

(* ================================================================== *)
(** * The properties at work on the scripted world *)

(** A free name on the connected page: the lookup throws and the check
    reports it available. *)
Lemma checkDomainAvailability_absence_is_available_witness :
  isValid (validateDomainName "abc") = true
  /\ resolve stub (log page) (connection (walletManager page)) "abc"
     = Rejected (newError "Account does not exist")
  /\ exists a,
       checkDomainAvailability stub "abc" page
       = (Normal (Some a), after_lookup "abc" page)
       /\ available a = true.
Proof.
  split; [reflexivity|]. split; [reflexivity|].
  destruct (checkDomainAvailability_absence_is_available stub "abc" page eq_refl)
    as [Hfree _].
  destruct (Hfree (newError "Account does not exist") eq_refl)
    as [a [Hrun [_ [Hav _]]]].
  exists a. split; assumption.
Defined.

(** The price of a three-letter name, and of its neighbours. *)
Lemma calculatePrice_tier_table_witness :
  String.length "abc" = 3
  /\ calculatePrice "abc" = 0.1%float
  /\ PrimFloat.ltb (calculatePrice "ab") (calculatePrice "abc") = true
  /\ PrimFloat.ltb (calculatePrice "abcd") (calculatePrice "abc") = true.
Proof.
  destruct (calculatePrice_tier_table stub "abc")
    as [_ [_ [H3 [_ [_ [_ Hpeak]]]]]].
  split; [reflexivity|]. split; [exact (H3 eq_refl)|].
  exact (Hpeak "ab" "abcd" eq_refl eq_refl eq_refl).
Defined.

(** A name with a doubled hyphen breaks the last rule and no earlier one. *)
Lemma validateDomainName_first_failure_wins_witness :
  violates RuleDoubleHyphen "my--name"
  /\ (forall r', rank r' < rank RuleDoubleHyphen -> ~ violates r' "my--name")
  /\ validateDomainName "my--name"
     = invalid "Domain name cannot contain consecutive hyphens".
Proof.
  assert (Hv : violates RuleDoubleHyphen "my--name")
    by (exists "my", "name"; reflexivity).
  assert (He : forall r', rank r' < rank RuleDoubleHyphen ->
                          ~ violates r' "my--name").
  { intros r' Hlt. apply violatesb_false.
    destruct r'; [reflexivity.. | simpl in Hlt; lia]. }
  split; [exact Hv|]. split; [exact He|].
  destruct (validateDomainName_first_failure_wins "my--name") as [H _].
  apply (proj2 (H RuleDoubleHyphen)). split; assumption.
Defined.

(** With 1000 lamports in the wallet the registration of [abc] stops at the
    balance check. *)
Lemma registerDomain_insufficient_funds_witness :
  exists w2,
    registerDomain poor "abc" "SOL" page =
    (Throw (newError "Insufficient balance. You need n SOL but only have n SOL"), w2)
    /\ only no_transaction page w2.
Proof.
  eexists.
  refine (registerDomain_insufficient_funds poor "abc" "SOL" page
            (newError "Account does not exist") (1000 / 1e9)%float _
            eq_refl eq_refl eq_refl _ eq_refl).
  vm_compute. reflexivity.
Defined.

(** On main net the first candidate never answers and the second does: the
    second is selected and the third is not probed. *)
Lemma selectEndpoint_first_responsive_witness :
  selectEndpoint stub "mainnet" mainnetEndpoints page =
  (Normal tt,
   set_log
     (fun l => (l ++ [EvGetVersion "https://rpc.ankr.com/solana";
                      EvGetVersion "https://solana-mainnet.g.alchemy.com/v2/demo";
                      EvDispatch "networkChanged"])%list)
     (set_walletManager
        (with_connection
           (Some {| rpcEndpoint := "https://solana-mainnet.g.alchemy.com/v2/demo";
                    commitment := "confirmed" |})) page)).
Proof.
  destruct (selectEndpoint_first_responsive stub "mainnet" mainnetEndpoints page)
    as [Hsel _].
  exact (Hsel ["https://rpc.ankr.com/solana"]
              "https://solana-mainnet.g.alchemy.com/v2/demo"
              ["https://api.mainnet-beta.solana.com";
               "https://mainnet.helius-rpc.com/?api-key=";
               "https://solana-mainnet.rpc.extrnode.com"]
              eq_refl eq_refl eq_refl).
Defined.

(** The query fails twice and then succeeds: the third answer is returned,
    after two pauses. *)
Lemma getBalance_retry_policy_witness :
  getBalance stub page =
  (Normal (Some (2000000000 / 1e9)%float),
   set_log
     (fun _ =>
        let q := EvGetBalance {| rpcEndpoint := "https://api.devnet.solana.com";
                                 commitment := "confirmed" |} "7EcDhSYG" in
        [q; EvSetTimeout 1000; q; EvSetTimeout 1000; q]) page).
Proof.
  destruct (getBalance_retry_policy stub page) as [_ H].
  exact (H {| rpcEndpoint := "https://api.devnet.solana.com";
              commitment := "confirmed" |} "7EcDhSYG" eq_refl eq_refl eq_refl).
Defined.

(** Before the wallet is connected nothing is asked of anyone; when the user
    refuses, the signing request is the last thing that happens. *)
Lemma signAndSendTransaction_error_kinds_witness :
  signAndSendTransaction stub draft page_disconnected
  = (Throw (newError "Wallet not connected"), page_disconnected)
  /\ exists w',
       signAndSendTransaction refusing draft page
       = (Throw (newError "Transaction rejected by user"), w')
       /\ List.length (log w') = 2.
Proof.
  split.
  - destruct (signAndSendTransaction_error_kinds stub draft page_disconnected)
      as [H _].
    apply H. left. reflexivity.
  - destruct (signAndSendTransaction_error_kinds refusing draft page)
      as [_ [_ [H _]]].
    eexists. split.
    + refine (H {| rpcEndpoint := "https://api.devnet.solana.com";
                   commitment := "confirmed" |} 80%N
                {| blockhash := "9xQeWvG8"; lastValidBlockHeight := 1000 |}
                {| message := "User rejected the request."; code := Some 4001%Z |}
                eq_refl _ eq_refl eq_refl eq_refl eq_refl _).
      * discriminate.
      * left. reflexivity.
    + reflexivity.
Defined.

(** ** Whole runs *)

(** A registration that goes through lights the steps 1, 2, 3, 4. *)
Example handleDomainRegistration_stub_success :
  activations (steps (uiManager page))
    (step_states (log (snd (handleDomainRegistration stub page))))
  = [1; 2; 3; 4].
Proof. vm_compute. reflexivity. Qed.

(** One that the user refuses stops with step 2 marked as failed. *)
Example handleDomainRegistration_refused :
  let w' := snd (handleDomainRegistration refusing page) in
  activations (steps (uiManager page)) (step_states (log w')) = [1; 2]
  /\ cls_error (step2 (steps (uiManager w'))) = true
  /\ In (EvNotification "Transaction rejected by user" "error") (log w').
Proof.
  vm_compute. repeat split.
  repeat first [left; reflexivity | right].
Qed.

(** Disconnecting the scripted wallet, whose own [disconnect] fails. *)
Example disconnect_stub :
  let w' := snd (disconnect stub page) in
  isConnected (walletManager w') = false
  /\ log w' = [EvWalletDisconnect; EvDispatch "walletDisconnected";
               EvDispatch "walletDisconnected"].
Proof. vm_compute. split; reflexivity. Qed.

(** Alternatives for a taken name: all three suffixes are free. *)
Example searchSimilarDomains_taken :
  fst (searchSimilarDomains stub "taken" page)
  = Normal [ {| sg_domain := "taken1"; sg_price := (0.02 + 0.001)%float |};
             {| sg_domain := "taken2"; sg_price := (0.02 + 0.001)%float |};
             {| sg_domain := "takenx"; sg_price := (0.02 + 0.001)%float |} ].
Proof. vm_compute. reflexivity. Qed.

(** A registration that goes through, and what it asked of the outside. *)
Example registerDomain_stub_success :
  let run := registerDomain stub "abc" "SOL" page in
  fst run
  = Normal {| reg_signature := "5VERv8NM";
              reg_domain := "abc";
              reg_cost := (0.1 + 0.001)%float;
              reg_paymentMethod := "SOL";
              reg_network := "devnet";
              reg_explorerUrl :=
                "https://explorer.solana.com/tx/5VERv8NM?cluster=devnet" |}
  /\ List.length (filter is_transaction_event (log (snd run))) = 4
  /\ List.length (filter is_getBalance (log (snd run))) = 3.
Proof. vm_compute. repeat split. Qed.

(** The devnet list on the scripted world: its first entry answers. *)
Example initializeConnection_devnet :
  let w' := snd (initializeConnection stub "devnet" page_disconnected) in
  connection (walletManager w')
  = Some {| rpcEndpoint := "https://api.devnet.solana.com";
            commitment := "confirmed" |}
  /\ log w' = [EvGetVersion "https://api.devnet.solana.com";
               EvDispatch "networkChanged"].
Proof. vm_compute. split; reflexivity. Qed.

(** One candidate per rule of the validator. *)
Example validateDomainName_samples :
  validateDomainName "" = invalid "Domain name is required"
  /\ validateDomainName "abcdefghijklmnopqrstuvwxyz0123456"
     = invalid "Domain name cannot exceed 32 characters"
  /\ validateDomainName "Abc"
     = invalid "Domain name can only contain lowercase letters, numbers, and hyphens"
  /\ validateDomainName "abc-"
     = invalid "Domain name cannot start or end with a hyphen"
  /\ validateDomainName "a--b"
     = invalid "Domain name cannot contain consecutive hyphens"
  /\ validateDomainName "--"
     = invalid "Domain name cannot start or end with a hyphen"
  /\ validateDomainName "a-b-9" = {| isValid := true; error := None |}.
Proof. repeat split. Qed.

(** The total of a quote is the floating-point sum, not the decimal one. *)
Example quote_total_is_a_double :
  (calculatePrice "ab" + networkFee)%float = 0.051000000000000004%float.
Proof. reflexivity. Qed.

(* ================================================================== *)
(** * Beyond the specification: what else the code shows *)

(** ** Relations every method keeps *)

Section Keep.

Variable R : World -> World -> Prop.
Hypothesis R_refl : forall w, R w w.
Hypothesis R_trans : forall w1 w2 w3, R w1 w2 -> R w2 w3 -> R w1 w3.

Lemma keeps_ret {A} (a : A) : respects R (ret a).
Proof. intros w r w' H. injection H as _ <-. apply R_refl. Qed.

Lemma keeps_throw {A} e : respects R (@throw A e).
Proof. intros w r w' H. injection H as _ <-. apply R_refl. Qed.

Lemma keeps_get : respects R get.
Proof. intros w r w' H. injection H as _ <-. apply R_refl. Qed.

Lemma keeps_bind {A B} (c : M A) (k : A -> M B) :
  respects R c -> (forall a, respects R (k a)) -> respects R (bind c k).
Proof.
  intros Hc Hk w r w' H. unfold bind in H.
  destruct (c w) as [[a|e] w1] eqn:E; apply Hc in E.
  - eapply R_trans; [exact E | eapply Hk; exact H].
  - now injection H as _ <-.
Qed.

Lemma keeps_attempt {A} (c : M A) : respects R c -> respects R (attempt c).
Proof.
  intros Hc w r w' H. unfold attempt in H.
  destruct (c w) as [r1 w1] eqn:E. injection H as _ <-. eapply Hc; eauto.
Qed.

Lemma keeps_try_catch {A} (c : M A) handler :
  respects R c -> (forall e, respects R (handler e)) ->
  respects R (try_catch c handler).
Proof.
  intros Hc Hh. unfold try_catch. apply keeps_bind.
  - now apply keeps_attempt.
  - intros [a|e]; [apply keeps_ret | apply Hh].
Qed.

Lemma keeps_complete {A} (r : completion A) : respects R (complete r).
Proof. destruct r; [apply keeps_ret | apply keeps_throw]. Qed.

Lemma keeps_await {A} (o : outcome A) : respects R (await o).
Proof. destruct o; [apply keeps_ret | apply keeps_throw]. Qed.

End Keep.

Lemma session_kept_refl w : session_kept w w.
Proof. reflexivity. Qed.

Lemma session_kept_trans w1 w2 w3 :
  session_kept w1 w2 -> session_kept w2 w3 -> session_kept w1 w3.
Proof. unfold session_kept. congruence. Qed.

Lemma session_modify_domainManager f :
  respects session_kept (modify (set_domainManager f)).
Proof. intros w r w' H. now injection H as _ <-. Qed.

Lemma session_modify_uiManager f :
  respects session_kept (modify (set_uiManager f)).
Proof. intros w r w' H. now injection H as _ <-. Qed.

Lemma session_ask {A} ev (answer : list Event -> A) :
  respects session_kept (ask ev answer).
Proof. intros w r w' H. now injection H as _ <-. Qed.

Lemma session_emit ev : respects session_kept (emit ev).
Proof. intros w r w' H. now injection H as _ <-. Qed.

Ltac keep_step Hrefl Htrans :=
  match goal with
  | |- respects _ (bind _ _) => apply keeps_bind; [exact Htrans | | intros ?]
  | |- respects _ (ret _) => apply keeps_ret; exact Hrefl
  | |- respects _ (throw _) => apply keeps_throw; exact Hrefl
  | |- respects _ get => apply keeps_get; exact Hrefl
  | |- respects _ (attempt _) => apply keeps_attempt
  | |- respects _ (try_catch _ _) =>
      apply keeps_try_catch; [exact Hrefl | exact Htrans | | intros ?]
  | |- respects _ (complete _) => apply keeps_complete; exact Hrefl
  | |- respects _ (await _) => apply keeps_await; exact Hrefl
  | |- respects _ (if ?b then _ else _) => destruct b
  | |- respects _ (match ?x with _ => _ end) => destruct x
  end.

Ltac session_step :=
  first
    [ keep_step session_kept_refl session_kept_trans
    | match goal with
      | |- respects _ (modify (set_domainManager _)) =>
          apply session_modify_domainManager
      | |- respects _ (modify (set_uiManager _)) =>
          apply session_modify_uiManager
      | |- respects _ (ask _ _) => apply session_ask
      | |- respects _ (emit _) => apply session_emit
      | |- respects _ (delay _) => apply session_emit
      | |- respects _ (dispatchEvent _) => apply session_emit
      | |- respects _ (showNotification _ _) => apply session_emit
      end ].

Section SessionOfMethods.

Variable env : Env.

Lemma checkDomainAvailability_session name :
  respects session_kept (checkDomainAvailability env name).
Proof.
  unfold checkDomainAvailability, getCurrentNetwork. repeat session_step.
Qed.

Lemma getBalance_session : respects session_kept (getBalance env).
Proof.
  unfold getBalance, getBalance_loop, fetchBalance, the_connection.
  repeat session_step.
Qed.

Lemma signAndSendTransaction_session tx :
  respects session_kept (signAndSendTransaction env tx).
Proof.
  unfold signAndSendTransaction, the_connection. repeat session_step.
Qed.

Lemma registerDomain_session name pm :
  respects session_kept (registerDomain env name pm).
Proof.
  unfold registerDomain, getCurrentNetwork, getExplorerUrl.
  repeat first [ apply checkDomainAvailability_session
               | apply getBalance_session
               | apply signAndSendTransaction_session
               | session_step ].
Qed.

(** ** The availability check and the registration, on their refusals *)

Lemma validateDomainName_first_violation name r :
  violates r name ->
  (forall r', rank r' < rank r -> ~ violates r' name) ->
  validateDomainName name = invalid (reason r).
Proof.
  intros Hv Hfirst. rewrite validateDomainName_cascade.
  now rewrite (proj2 (first_violation_Some name r) (conj Hv Hfirst)).
Qed.

(** X1: a name the validator rejects never reaches the name service: the
    check answers with the reason of the first rule the name breaks and
    leaves everything as it was. *)
Theorem checkDomainAvailability_rejects_invalid (name : string) (r : Rule) (w : World) :
  violates r name ->
  (forall r', rank r' < rank r -> ~ violates r' name) ->
  checkDomainAvailability env name w = (Normal (Some (CheckFailed (reason r))), w).
Proof.
  intros Hv Hfirst.
  pose proof (validateDomainName_first_violation _ _ Hv Hfirst) as Hval.
  unfold checkDomainAvailability. js. rewrite Hval. reflexivity.
Qed.

(** X2: the availability check never throws; it leaves the wallet session
    and the panel alone and asks the name service at most once, about the
    name it was given and over the wallet manager's connection. *)
Theorem checkDomainAvailability_never_throws (name : string) (w : World) :
  exists a w',
    checkDomainAvailability env name w = (Normal a, w')
    /\ walletManager w' = walletManager w
    /\ uiManager w' = uiManager w
    /\ (log w' = log w
        \/ log w' = (log w ++ [EvResolve (connection (walletManager w)) name])%list).
Proof.
  destruct (isValid (validateDomainName name)) eqn:Hvalid.
  - rewrite (checkDomainAvailability_run env _ _ Hvalid).
    eexists _, _. split; [reflexivity|]. repeat split. now right.
  - rewrite (checkDomainAvailability_invalid env _ _ Hvalid).
    eexists _, _. split; [reflexivity|]. repeat split. now left.
Qed.

(** X3: without a connected session [registerDomain] throws at once and
    changes nothing: no lookup, no balance query, no transaction. *)
Theorem registerDomain_not_connected (name paymentMethod : string) (w : World) :
  isConnected (walletManager w) = false ->
  registerDomain env name paymentMethod w
  = (Throw (newError "Wallet not connected"), w).
Proof.
  intros Hc. unfold registerDomain. js. rewrite Hc. reflexivity.
Qed.

(** X4: a connected session registering a name the validator rejects gets
    the validator's reason as the error, and nothing is looked up or asked
    of the wallet: the log is as it was. *)
Theorem registerDomain_invalid_name
    (name paymentMethod : string) (r : Rule) (w : World) :
  isConnected (walletManager w) = true ->
  violates r name ->
  (forall r', rank r' < rank r -> ~ violates r' name) ->
  exists w',
    registerDomain env name paymentMethod w = (Throw (newError (reason r)), w')
    /\ log w' = log w
    /\ walletManager w' = walletManager w.
Proof.
  intros Hc Hv Hfirst.
  pose proof (validateDomainName_first_violation _ _ Hv Hfirst) as Hval.
  unfold registerDomain. js. rewrite Hc, Hval.
  unfold invalid. cbn [isValid error]. js.
  eexists. split; [destruct r; reflexivity|]. split; reflexivity.
Qed.

(** X5: when the lookup finds an owner, [registerDomain] throws "Domain is
    not available for registration" after the lookup alone; when the lookup
    answers with no owner and no exception, it throws the [TypeError] of
    reading [success] off [undefined].  Either way no balance is fetched and
    no transaction is built. *)
Theorem registerDomain_unavailable (name paymentMethod : string) (w : World) :
  isConnected (walletManager w) = true ->
  isValid (validateDomainName name) = true ->
  (forall owner,
     resolve env (log w) (connection (walletManager w)) name = Fulfilled (Some owner) ->
     registerDomain env name paymentMethod w
     = (Throw (newError "Domain is not available for registration"),
        after_lookup name w))
  /\ (resolve env (log w) (connection (walletManager w)) name = Fulfilled None ->
      registerDomain env name paymentMethod w
      = (Throw (TypeError_reading "undefined" "success"), after_lookup name w)).
Proof.
  intros Hc Hvalid. split.
  - intros owner Ho. unfold registerDomain. js. rewrite Hc, Hvalid. js.
    rewrite (checkDomainAvailability_run env _ _ Hvalid). js. rewrite Ho.
    reflexivity.
  - intros Ho. unfold registerDomain. js. rewrite Hc, Hvalid. js.
    rewrite (checkDomainAvailability_run env _ _ Hvalid). js. rewrite Ho.
    reflexivity.
Qed.

Lemma or_string_nonempty msg dflt : dflt <> "" -> or_string msg dflt <> "".
Proof.
  unfold or_string. intros Hd. destruct msg; [exact Hd | discriminate].
Qed.

Lemma registerDomain_throws_fresh_error name paymentMethod w e w' :
  registerDomain env name paymentMethod w = (Throw e, w') ->
  exists msg, e = newError msg /\ msg <> "".
Proof.
  unfold registerDomain, try_catch. intros H. unfold bind at 1 in H.
  match type of H with
  | context [attempt ?c w] => destruct (attempt c w) as [[[a|e0]|e1] w1] eqn:E
  end.
  - discriminate H.
  - injection H as <- _. eexists. split; [reflexivity|].
    apply or_string_nonempty. discriminate.
  - unfold attempt in E.
    match type of E with
    | (let (_, _) := ?c in _) = _ => destruct c
    end. discriminate E.
Qed.

(** X6: whatever [registerDomain] throws is a fresh [Error] with a non-empty
    message and no code, so the notice built from [error.message] is never
    blank. *)
Theorem registerDomain_error_has_message
    (name paymentMethod : string) (w : World) (e : Error) (w' : World) :
  registerDomain env name paymentMethod w = (Throw e, w') ->
  message e <> "" /\ code e = None.
Proof.
  intros H.
  destruct (registerDomain_throws_fresh_error _ _ _ _ _ H) as [msg [-> Hmsg]].
  split; [exact Hmsg | reflexivity].
Qed.

(** X7: likewise for [signAndSendTransaction]: every error it throws has a
    non-empty message and no code, whatever the wallet or the node threw. *)
Theorem signAndSendTransaction_error_has_message
    (tx : Transaction) (w : World) (e : Error) (w' : World) :
  signAndSendTransaction env tx w = (Throw e, w') ->
  message e <> "" /\ code e = None.
Proof.
  unfold signAndSendTransaction. intros H. unfold bind at 1, get in H.
  destruct (negb (isConnected (walletManager w))
            || negb (is_some (wallet (walletManager w)))).
  - injection H as <- _. split; [discriminate | reflexivity].
  - unfold try_catch in H. unfold bind at 1 in H.
    match type of H with
    | context [attempt ?c w] => destruct (attempt c w) as [[[a|e0]|e1] w1] eqn:E
    end.
    + discriminate H.
    + injection H as <- _. unfold classifyTransactionError.
      repeat match goal with
             | |- context [if ?b then _ else _] => destruct b
             end; (split; [|reflexivity]); try discriminate.
      apply or_string_nonempty. discriminate.
    + unfold attempt in E.
      match type of E with
      | (let (_, _) := ?c in _) = _ => destruct c
      end. discriminate E.
Qed.

(** ** The balance, without a session or without a connection *)

(** X8: with no connected session, or no public key, [getBalance] answers 0
    without querying anything. *)
Theorem getBalance_without_session (w : World) :
  isConnected (walletManager w) = false \/ publicKey (walletManager w) = None ->
  getBalance env w = (Normal (Some 0%float), w).
Proof.
  unfold getBalance. js. intros [H|H]; rewrite H.
  - reflexivity.
  - now destruct (isConnected (walletManager w)).
Qed.

(** X9: with a session but no connection ever selected, each of the three
    attempts fails on [this.connection] itself: [getBalance] answers 0 after
    its two pauses, and no query leaves the page. *)
Theorem getBalance_without_connection (w : World) (pk : PublicKey) :
  isConnected (walletManager w) = true ->
  publicKey (walletManager w) = Some pk ->
  connection (walletManager w) = None ->
  getBalance env w
  = (Normal (Some 0%float),
     set_log (fun l => (l ++ [EvSetTimeout 1000; EvSetTimeout 1000])%list) w).
Proof.
  intros Hc Hpk Hconn. unfold getBalance. js. rewrite Hc, Hpk.
  unfold getBalance_loop, fetchBalance. js.
  rewrite Hconn; js. rewrite Hconn; js. rewrite Hconn; js.
  rewrite <- app_assoc. reflexivity.
Qed.

End SessionOfMethods.

Ltac js_in H :=
  cbv beta iota zeta delta
      [bind ret throw get modify emit attempt try_catch try_finally complete
       await ask delay dispatchEvent the_connection getCurrentNetwork
       set_log set_walletManager set_domainManager set_uiManager
       with_wallet with_connection with_publicKey with_isConnected
       with_currentNetwork] in H;
  cbn [log walletManager domainManager uiManager
       wallet connection publicKey isConnected currentNetwork dm_connection
       negb orb andb is_some fst snd Nat.eqb] in H.

Section SuccessOfMethods.

Variable env : Env.

(** ** What a success entails *)



Lemma getBalance_returns_number w :
  exists b w', getBalance env w = (Normal (Some b), w').
Proof.
  unfold getBalance. js.
  destruct (isConnected (walletManager w)); [|eauto].
  destruct (publicKey (walletManager w)) as [pk|]; [|eauto].
  unfold getBalance_loop, fetchBalance. js.
  destruct (connection (walletManager w)) as [c|] eqn:Hconn; js.
  - repeat match goal with
           | |- context [rpc_getBalance env ?h c pk] =>
               destruct (rpc_getBalance env h c pk); js; rewrite ?Hconn; js
           end; eauto.
  - rewrite ?Hconn; js. rewrite ?Hconn; js. eauto.
Qed.


End SuccessOfMethods.

Section SessionLifecycle.

Variable env : Env.

(** ** Tearing the session down, switching network, the faucet *)

Lemma disconnect_disconnected w :
  exists w', disconnect env w = (Normal tt, w') /\ disconnected w'.
Proof.
  unfold disconnect, disconnected, try_finally, try_catch, attempt, bind, get.
  destruct (is_some (wallet (walletManager w)) && isConnected (walletManager w)).
  - unfold await_wallet_disconnect, ask, bind.
    destruct (wallet_disconnect env (log w)) as [answer es]. cbn [fst snd].
    destruct (onWalletEvents_run es
                (set_log (fun l => (l ++ [EvWalletDisconnect])%list) w))
      as [w1 [H1 _]].
    rewrite H1.
    destruct answer as [[]|e]; cbn; eexists; (split; [reflexivity|]);
      cbn; repeat split.
  - cbn. eexists; split; [reflexivity|]. cbn. repeat split.
Qed.

(** X12: once [disconnect] has run, nothing reaches the wallet or the
    network until a wallet connects again: signing, registering and the
    faucet throw "Wallet not connected" and change nothing, the balance is 0
    without a query, and a second [disconnect] only re-announces the
    disconnection without calling the wallet. *)
Theorem nothing_reaches_out_after_disconnect
    (w0 w : World) (tx : Transaction) (name paymentMethod : string)
    (airdrop : outcome string) (amount : float) :
  disconnect env w0 = (Normal tt, w) ->
  signAndSendTransaction env tx w = (Throw (newError "Wallet not connected"), w)
  /\ registerDomain env name paymentMethod w
     = (Throw (newError "Wallet not connected"), w)
  /\ requestAirdrop env airdrop amount w
     = (Throw (newError "Wallet not connected"), w)
  /\ getBalance env w = (Normal (Some 0%float), w)
  /\ exists w',
       disconnect env w = (Normal tt, w')
       /\ walletManager w' = walletManager w
       /\ log w' = (log w ++ [EvDispatch "walletDisconnected"])%list.
Proof.
  intros Hrun.
  destruct (disconnect_disconnected w0) as [w1 [Hrun1 [Hc [Hpk Hwal]]]].
  rewrite Hrun in Hrun1. injection Hrun1 as <-.
  split; [|split; [|split; [|split]]].
  - unfold signAndSendTransaction. js. now rewrite Hc.
  - unfold registerDomain. js. now rewrite Hc.
  - unfold requestAirdrop. js. now rewrite Hc.
  - unfold getBalance. js. now rewrite Hc.
  - unfold disconnect, try_finally, try_catch, handleWalletDisconnect. js.
    rewrite Hwal. js. eexists. split; [reflexivity|]. split; [|reflexivity].
    cbn. destruct (walletManager w) as [wal conn pk ic net].
    cbn in Hc, Hpk, Hwal. now subst.
Qed.

(** X13: [switchNetwork] never throws, and its answer tells what happened.
    "Already on": nothing was probed and nothing changed.  "Switched": the
    session is on the requested network with a connection to one of that
    network's endpoints.  Failure: the connection is the old one, yet the
    session already bears the requested network's name, so that asking again
    reports "Already on" without probing anything. *)
Theorem switchNetwork_outcomes (network : string) (w : World) :
  exists r w',
    switchNetwork env network w = (Normal r, w')
    /\ match r with
       | SwitchOk msg None =>
           msg = "Already on " ++ network /\ w' = w
           /\ currentNetwork (walletManager w) = network
       | SwitchOk msg (Some n) =>
           msg = "Switched to " ++ network /\ n = network
           /\ currentNetwork (walletManager w') = network
           /\ exists e, In e (rpcEndpoints env network)
                        /\ connection (walletManager w')
                           = Some {| rpcEndpoint := e; commitment := "confirmed" |}
       | SwitchFailed err =>
           err = "Failed to switch to " ++ network ++ ": Failed to connect to "
                 ++ network
           /\ currentNetwork (walletManager w') = network
           /\ connection (walletManager w') = connection (walletManager w)
           /\ log w' = (log w ++ map EvGetVersion (rpcEndpoints env network))%list
           /\ switchNetwork env network w'
              = (Normal (SwitchOk ("Already on " ++ network) None), w')
       end.
Proof.
  unfold switchNetwork at 1. js.
  destruct (String.eqb_spec (currentNetwork (walletManager w)) network) as [Heq|Hne].
  - eexists _, _. split; [reflexivity|]. now repeat split.
  - unfold initializeConnection. js.
    set (w0 := set_walletManager (with_currentNetwork network) w).
    change {| walletManager := _; domainManager := domainManager w;
              uiManager := uiManager w; log := log w |} with w0.
    destruct (all_unresponsive_or_first env (rpcEndpoints env network) (log w0))
      as [Hall|[pre [e [post [Hl [Hpre He]]]]]].
    + rewrite (selectEndpoint_fails env _ _ _ Hall). js.
      eexists _, _. split; [reflexivity|]. cbn.
      repeat split.
      unfold switchNetwork. js. now rewrite String.eqb_refl.
    + rewrite Hl, (selectEndpoint_selects env _ _ _ _ _ Hpre He). js.
      eexists _, _. split; [reflexivity|]. cbn.
      repeat split. exists e. split; [|reflexivity].
      apply in_or_app. right. now left.
Qed.

(** X14: the faucet refuses before touching the network when no session is
    connected or when the network is not devnet; it returns only on devnet,
    after the airdrop was granted and its signature confirmed, with the
    amount asked for; and every failure past the two refusals is reported as
    "Failed to get test SOL: " followed by the cause. *)
Theorem requestAirdrop_outcomes (airdrop : outcome string) (amount : float) (w : World) :
  (isConnected (walletManager w) = false \/ publicKey (walletManager w) = None ->
   requestAirdrop env airdrop amount w = (Throw (newError "Wallet not connected"), w))
  /\ (isConnected (walletManager w) = true ->
      publicKey (walletManager w) <> None ->
      currentNetwork (walletManager w) <> "devnet" ->
      requestAirdrop env airdrop amount w
      = (Throw (newError "Airdrops are only available on devnet"), w))
  /\ (forall a w',
        requestAirdrop env airdrop amount w = (Normal a, w') ->
        currentNetwork (walletManager w) = "devnet"
        /\ airdrop = Fulfilled (ad_signature a)
        /\ ad_amount a = amount /\ ad_network a = "devnet"
        /\ log w' = (log w ++ [EvConfirmTransaction (ad_signature a)])%list)
  /\ (forall e w',
        requestAirdrop env airdrop amount w = (Throw e, w') ->
        isConnected (walletManager w) = true ->
        publicKey (walletManager w) <> None ->
        currentNetwork (walletManager w) = "devnet" ->
        exists cause, message e = "Failed to get test SOL: " ++ cause).
Proof.
  split; [|split; [|split]].
  - unfold requestAirdrop. js. intros [H|H]; rewrite H.
    + reflexivity.
    + now rewrite orb_true_r.
  - intros Hc Hpk Hnet. unfold requestAirdrop. js. rewrite Hc.
    destruct (publicKey (walletManager w)); [|congruence]. js.
    destruct (String.eqb_spec (currentNetwork (walletManager w)) "devnet");
      [congruence | reflexivity].
  - intros a w' H. unfold requestAirdrop in H. js_in H.
    destruct (isConnected (walletManager w)); [|discriminate H].
    destruct (publicKey (walletManager w)); [|discriminate H]. js_in H.
    destruct (String.eqb_spec (currentNetwork (walletManager w)) "devnet")
      as [Hnet|]; [|discriminate H]. js_in H.
    destruct (connection (walletManager w)) as [c|] eqn:Hconn; js_in H;
      [|discriminate H].
    destruct airdrop as [sg|e]; js_in H; [|discriminate H].
    rewrite ?Hconn in H. js_in H.
    destruct (confirmTransaction env (log w) c sg); js_in H; [|discriminate H].
    injection H as <- <-. cbn. now repeat split.
  - intros e w' H Hc Hpk Hnet. unfold requestAirdrop in H.
    unfold bind at 1, get in H. rewrite Hc, Hnet in H.
    destruct (publicKey (walletManager w)); [|congruence].
    rewrite String.eqb_refl in H. cbn [negb orb is_some] in H.
    unfold try_catch in H. unfold bind at 1 in H.
    match type of H with
    | context [attempt ?c w] => destruct (attempt c w) as [[[a|e0]|e1] w1] eqn:E
    end.
    + discriminate H.
    + injection H as <- _. now eexists.
    + unfold attempt in E.
      match type of E with
      | (let (_, _) := ?c in _) = _ => destruct c
      end. discriminate E.
Qed.

End SessionLifecycle.

(** ** Connecting a wallet *)



(* ================================================================== *)
(** * The form: shortening an address, cleaning the domain field *)

Lemma substring_first s : forall n,
  n <= String.length s ->
  exists rest, s = substring 0 n s ++ rest
               /\ String.length (substring 0 n s) = n.
Proof.
  induction s as [|c s IH]; intros [|n] Hn; cbn in *.
  - now exists "".
  - lia.
  - now exists (String c s).
  - destruct (IH n ltac:(lia)) as [rest [H1 H2]].
    exists rest. split; [now rewrite <- H1 | now rewrite H2].
Qed.

Lemma substring_skip first rest n : forall k,
  substring (String.length first + k) n (first ++ rest) = substring k n rest.
Proof.
  induction first as [|c first IH]; intros k; [reflexivity|].
  cbn. apply IH.
Qed.

Lemma substring_whole s : forall n,
  String.length s <= n -> substring 0 n s = s.
Proof.
  induction s as [|c s IH]; intros [|n] Hn; cbn in *; try reflexivity; try lia.
  now rewrite IH by lia.
Qed.

Lemma length_append s t :
  String.length (s ++ t) = String.length s + String.length t.
Proof. induction s as [|c s IH]; cbn; [reflexivity | now rewrite IH]. Qed.

Lemma substring_last s n :
  n <= String.length s ->
  exists front, s = front ++ substring (String.length s - n) n s
                /\ String.length (substring (String.length s - n) n s) = n.
Proof.
  intros Hn.
  destruct (substring_first s (String.length s - n) ltac:(lia)) as [rest [H1 H2]].
  set (front := substring 0 (String.length s - n) s) in *.
  assert (Hrest : String.length rest = n).
  { apply (f_equal String.length) in H1. rewrite length_append, H2 in H1. lia. }
  exists front.
  assert (Hsub : substring (String.length s - n) n s = rest).
  { rewrite H1 at 2. rewrite <- H2 at 1.
    replace (String.length front) with (String.length front + 0) by lia.
    rewrite substring_skip. apply substring_whole. lia. }
  rewrite Hsub. now split.
Qed.

(** X16: [formatAddress] hands back unchanged an address shorter than the
    two lengths together (the empty one included); a longer one becomes its
    first [startLength] characters, three dots and its last [endLength]
    characters; and with [endLength = 0] the dots are followed by the whole
    address, since [slice(-0)] is [slice(0)]. *)
Theorem formatAddress_shape (address : string) (startLength endLength : nat) :
  (String.length address < startLength + endLength ->
   formatAddress address startLength endLength = address)
  /\ (startLength + endLength <= String.length address -> 0 < endLength ->
      exists first middle last,
        address = first ++ middle ++ last
        /\ String.length first = startLength
        /\ String.length last = endLength
        /\ formatAddress address startLength endLength = first ++ "..." ++ last)
  /\ (startLength <= String.length address -> address <> "" ->
      exists first rest,
        address = first ++ rest
        /\ String.length first = startLength
        /\ formatAddress address startLength 0 = first ++ "..." ++ address).
Proof.
  unfold formatAddress, slice_first, slice_last. split; [|split].
  - intros H. apply Nat.ltb_lt in H. rewrite H. now rewrite orb_true_r.
  - intros Hlen Hend.
    assert (Hne : truthy_string address = true)
      by (destruct address; [cbn in Hlen; lia | reflexivity]).
    rewrite Hne. apply Nat.ltb_ge in Hlen as Hlt. rewrite Hlt. cbn [negb orb].
    destruct endLength as [|e]; [lia|]. cbn [Nat.eqb].
    destruct (substring_first address startLength ltac:(lia)) as [rest [H1 H2]].
    destruct (substring_last address (S e) ltac:(lia)) as [front [H3 H4]].
    set (first := substring 0 startLength address) in *.
    set (last := substring (String.length address - S e) (S e) address) in *.
    assert (Hrest : String.length rest = String.length address - startLength).
    { apply (f_equal String.length) in H1. rewrite length_append, H2 in H1. lia. }
    destruct (substring_last rest (S e) ltac:(lia)) as [middle [H5 H6]].
    assert (Hlast : substring (String.length rest - S e) (S e) rest = last).
    { unfold last.
      transitivity (substring (String.length first + (String.length rest - S e))
                              (S e) (first ++ rest)).
      - symmetry. apply substring_skip.
      - f_equal; [lia | now symmetry]. }
    rewrite Hlast in H5.
    exists first, middle, last. repeat split; auto.
    now rewrite <- H5.
  - intros Hlen Hne.
    assert (Ht : truthy_string address = true)
      by (destruct address; [congruence | reflexivity]).
    rewrite Ht, Nat.add_0_r. apply Nat.ltb_ge in Hlen as Hlt. rewrite Hlt.
    cbn [negb orb Nat.eqb].
    destruct (substring_first address startLength Hlen) as [rest [H1 H2]].
    exists (substring 0 startLength address), rest. now repeat split.
Qed.

(** X17: the two [formatAddress] methods agree on addresses of eight
    characters or more; on one of at most four characters the admin panel's
    repeats the whole address on both sides of the dots, where the form's
    returns it as it is. *)
Theorem admin_formatAddress_vs_formatAddress (address : string) :
  (8 <= String.length address ->
   admin_formatAddress address = formatAddress address 4 4)
  /\ (String.length address <= 4 ->
      admin_formatAddress address = address ++ "..." ++ address
      /\ formatAddress address 4 4 = address).
Proof.
  unfold admin_formatAddress, formatAddress, slice_first, slice_last. split.
  - intros H.
    assert (Ht : truthy_string address = true)
      by (destruct address; [cbn in H; lia | reflexivity]).
    rewrite Ht. apply Nat.ltb_ge in H. cbn [Nat.add]. now rewrite H.
  - intros H. cbn [Nat.eqb Nat.add]. split.
    + rewrite (substring_whole address 4 H).
      replace (String.length address - 4) with 0 by lia.
      now rewrite (substring_whole address 4 H).
    + assert (Hlt : (String.length address <? 8)%nat = true)
        by (apply Nat.ltb_lt; lia).
      rewrite Hlt. now rewrite orb_true_r.
Qed.

(** ** The ['input'] listener of the domain field *)

Lemma remove_invalid_valid s :
  forallb validChar (list_ascii_of_string (remove_invalid s)) = true.
Proof.
  induction s as [|c s IH]; [reflexivity|].
  cbn [remove_invalid]. destruct (validChar c) eqn:Hc; [|exact IH].
  cbn. now rewrite Hc.
Qed.

Lemma collapse_hyphens_valid s :
  forallb validChar (list_ascii_of_string s) = true ->
  forallb validChar (list_ascii_of_string (collapse_hyphens s)) = true.
Proof.
  induction s as [|c s IH]; [reflexivity|].
  cbn [list_ascii_of_string forallb collapse_hyphens]. intros H.
  apply andb_true_iff in H as [Hc Hs].
  destruct (Ascii.eqb c "-" && startsWith s "-"); [now apply IH|].
  cbn. now rewrite Hc, IH.
Qed.

Lemma startsWith_hyphen c s :
  startsWith (String c s) "-" = Ascii.eqb c "-".
Proof.
  unfold startsWith. cbn [String.prefix].
  destruct (ascii_dec "-" c) as [<-|Hne].
  - now destruct s.
  - symmetry. apply Ascii.eqb_neq. congruence.
Qed.

Lemma collapse_hyphens_head s :
  startsWith (collapse_hyphens s) "-" = startsWith s "-".
Proof.
  induction s as [|c s IH]; [reflexivity|].
  cbn [collapse_hyphens].
  destruct (Ascii.eqb c "-" && startsWith s "-") eqn:H.
  - apply andb_true_iff in H as [Hc Hs].
    now rewrite IH, Hs, startsWith_hyphen.
  - now rewrite !startsWith_hyphen.
Qed.

Lemma prefix_double_hyphen c s :
  String.prefix "--" (String c s) = Ascii.eqb c "-" && startsWith s "-".
Proof.
  cbn [String.prefix].
  destruct (ascii_dec "-" c) as [<-|Hne].
  - reflexivity.
  - assert (H : Ascii.eqb c "-" = false) by (apply Ascii.eqb_neq; congruence).
    now rewrite H.
Qed.

Lemma collapse_hyphens_no_double s :
  includes (collapse_hyphens s) "--" = false.
Proof.
  induction s as [|c s IH]; [reflexivity|].
  cbn [collapse_hyphens].
  destruct (Ascii.eqb c "-" && startsWith s "-") eqn:H; [exact IH|].
  cbn [includes]. rewrite IH, orb_false_r, prefix_double_hyphen.
  now rewrite collapse_hyphens_head.
Qed.

Lemma collapse_hyphens_fixes s :
  includes s "--" = false -> collapse_hyphens s = s.
Proof.
  induction s as [|c s IH]; [reflexivity|].
  cbn [includes collapse_hyphens]. intros H.
  apply orb_false_iff in H as [Hp Hs].
  rewrite prefix_double_hyphen in Hp. rewrite Hp. now rewrite IH.
Qed.

Lemma remove_invalid_fixes s :
  forallb validChar (list_ascii_of_string s) = true -> remove_invalid s = s.
Proof.
  induction s as [|c s IH]; [reflexivity|].
  cbn. intros H. apply andb_true_iff in H as [Hc Hs].
  now rewrite Hc, IH.
Qed.

(** What the listener leaves in the field is made of allowed characters,
    has no doubled hyphen and no leading hyphen. *)
Lemma sanitizeDomainInput_clean toLowerCase value :
  let v := sanitizeDomainInput toLowerCase value in
  forallb validChar (list_ascii_of_string v) = true
  /\ includes v "--" = false
  /\ startsWith v "-" = false.
Proof.
  unfold sanitizeDomainInput.
  set (t := collapse_hyphens (remove_invalid (toLowerCase value))).
  assert (Hvalid : forallb validChar (list_ascii_of_string t) = true)
    by (apply collapse_hyphens_valid, remove_invalid_valid).
  assert (Hnd : includes t "--" = false) by apply collapse_hyphens_no_double.
  cbv zeta. destruct (startsWith t "-") eqn:Hhead; [|now repeat split].
  destruct t as [|c t]; [discriminate Hhead|]. cbn [substring_from_1].
  rewrite startsWith_hyphen in Hhead.
  cbn [includes] in Hnd. apply orb_false_iff in Hnd as [Hp Hnd].
  rewrite prefix_double_hyphen, Hhead in Hp. cbn in Hp.
  cbn in Hvalid. apply andb_true_iff in Hvalid as [_ Hvalid].
  now repeat split.
Qed.

(** X18: whatever is typed, the value the ['input'] listener writes back
    breaks none of the validator's rules on characters, doubled hyphens and
    leading hyphen; so it is a valid name exactly when it is not empty, not
    longer than 32 and does not end with a hyphen.  The listener changes
    nothing in a value it has already cleaned, provided [toLowerCase] leaves
    strings over [[a-z0-9-]] alone. *)
Theorem sanitizeDomainInput_meets_validator
    (toLowerCase : string -> string) (value : string) :
  let v := sanitizeDomainInput toLowerCase value in
  ~ violates RuleCharset v
  /\ ~ violates RuleDoubleHyphen v
  /\ ~ (exists t, v = "-" ++ t)
  /\ (validateDomainName v = {| isValid := true; error := None |} <->
      v <> "" /\ String.length v <= 32 /\ ~ (exists t, v = t ++ "-"))
  /\ ((forall s, forallb validChar (list_ascii_of_string s) = true ->
                 toLowerCase s = s) ->
      sanitizeDomainInput toLowerCase v = v).
Proof.
  intros v.
  destruct (sanitizeDomainInput_clean toLowerCase value) as [Hvalid [Hnd Hhead]].
  fold v in Hvalid, Hnd, Hhead.
  assert (Hcs : violatesb RuleCharset v = false) by (cbn; now rewrite Hvalid).
  assert (Hdh : violatesb RuleDoubleHyphen v = false) by exact Hnd.
  split; [now apply violatesb_false|].
  split; [now apply violatesb_false|].
  split.
  { rewrite <- startsWith_spec. congruence. }
  split.
  - rewrite validateDomainName_cascade.
    unfold first_violation, rules. cbn [find]. rewrite Hcs, Hdh.
    cbn [violatesb]. rewrite Hhead. cbn [orb].
    rewrite <- endsWith_spec.
    destruct (truthy_string v) eqn:Ht; cbn [negb].
    2:{ split; [discriminate|]. intros [H _]. destruct v; [congruence|discriminate]. }
    destruct (Nat.ltb_spec 32 (String.length v)).
    { split; [discriminate|]. intros [_ [H' _]]. lia. }
    destruct (endsWith v "-").
    { split; [discriminate|]. intros [_ [_ H']]. congruence. }
    split; [|reflexivity]. intros _.
    repeat split; [destruct v; [discriminate|discriminate] | lia | discriminate].
  - intros Hlower. unfold sanitizeDomainInput.
    rewrite (Hlower v Hvalid), (remove_invalid_fixes v Hvalid),
      (collapse_hyphens_fixes v Hnd), Hhead. reflexivity.
Qed.

Lemma validChar_not_upper c : validChar c = true -> in_range "A" "Z" c = false.
Proof.
  rewrite validChar_spec. unfold allowed. intros H.
  destruct (in_range "A" "Z" c) eqn:E; [|reflexivity].
  apply in_range_spec in E.
  change (nat_of_ascii "A") with 65 in E. change (nat_of_ascii "Z") with 90 in E.
  destruct H as [H|[H|H]]; [lia | lia |].
  subst c. cbn in E. lia.
Qed.

Lemma ascii_toLowerCase_fixes s :
  forallb validChar (list_ascii_of_string s) = true -> ascii_toLowerCase s = s.
Proof.
  induction s as [|c s IH]; [reflexivity|].
  cbn. intros H. apply andb_true_iff in H as [Hc Hs].
  unfold ascii_toLowerCase_char. now rewrite (validChar_not_upper c Hc), IH.
Qed.

(* ================================================================== *)
(** * The registration handler, seen by the user *)

Ltac panel :=
  lazy beta iota zeta delta
      [bind ret throw get modify emit attempt try_catch try_finally complete
       await ask delay dispatchEvent
       set_log set_walletManager set_domainManager set_uiManager
       with_steps with_transactionStatus_hidden with_transactionDetails_hidden
       with_currentDomain resetForm
       showTransactionStatus resetTransactionSteps setTransactionStep forEach
       element write_step snapshot step_at put_step remove_active_completed
       showNotification hideTransactionStatus updateTransactionStatus
       getCurrentActiveStep firstActive
       registration_prelude at_registration
       String.eqb Ascii.eqb Bool.eqb Nat.eqb
       log walletManager domainManager uiManager steps
       step1 step2 step3 step4 cls_active cls_completed cls_error step_status
       currentDomain paymentMethod_value transactionStatus_hidden
       transactionDetails_hidden isConnected publicKey
       negb orb andb fst snd].

Ltac panel_in H :=
  lazy beta iota zeta delta
      [bind ret throw get modify emit attempt try_catch try_finally complete
       await ask delay dispatchEvent
       set_log set_walletManager set_domainManager set_uiManager
       with_steps with_transactionStatus_hidden with_transactionDetails_hidden
       with_currentDomain resetForm
       showTransactionStatus resetTransactionSteps setTransactionStep forEach
       element write_step snapshot step_at put_step remove_active_completed
       showNotification hideTransactionStatus updateTransactionStatus
       getCurrentActiveStep firstActive
       registration_prelude at_registration
       String.eqb Ascii.eqb Bool.eqb Nat.eqb
       log walletManager domainManager uiManager steps
       step1 step2 step3 step4 cls_active cls_completed cls_error step_status
       currentDomain paymentMethod_value transactionStatus_hidden
       transactionDetails_hidden isConnected publicKey
       negb orb andb fst snd] in H.

Lemma notifications_app l1 l2 :
  notifications (l1 ++ l2) = (notifications l1 ++ notifications l2)%list.
Proof. apply filter_app. Qed.

Lemma notifications_quiet l :
  forallb is_quiet l = true -> notifications l = [].
Proof.
  induction l as [|e l IH]; [reflexivity|].
  cbn. intros H. apply andb_true_iff in H as [He Hl].
  destruct e; try discriminate He; now apply IH.
Qed.



Section HandlerProperties.

Variable env : Env.



Ltac use_frames Hrun session_lemma frame_lemma :=
  let Hs := fresh "Hsession" in
  let Hf := fresh "Hframe" in
  let Hui := fresh "Hui" in
  let Hlog := fresh "Hlog" in
  let added := fresh "added" in
  let Hquiet := fresh "Hquiet" in
  pose proof Hrun as Hs; apply session_lemma in Hs;
  pose proof Hrun as Hf; apply frame_lemma in Hf; try reflexivity;
  destruct Hf as [Hui [added [Hlog Hquiet]]];
  unfold session_kept in Hs;
  cbn [uiManager log walletManager] in Hui, Hlog, Hs; subst.


Lemma step_states_quiet l : forallb is_quiet l = true -> step_states l = [].
Proof.
  induction l as [|e l IH]; [reflexivity|].
  cbn. intros H. apply andb_true_iff in H as [He Hl].
  destruct e; try discriminate He; now apply IH.
Qed.

(** X20: when [registerDomain] throws, the handler returns normally having
    marked step 2 as failed (error class, cross, no longer active), with
    step 1 completed and steps 3 and 4 never reached, and shows the message
    of the error as its one notice. *)
Theorem handleDomainRegistration_failure_display
    (w : World) (d : string) (e : Error) (w2 : World) :
  isConnected (walletManager w) = true ->
  currentDomain (uiManager w) = Some d ->
  d <> "" ->
  registerDomain env d (paymentMethod_value (uiManager w)) (at_registration w)
  = (Throw e, w2) ->
  exists w',
    handleDomainRegistration env w = (Normal tt, w')
    /\ walletManager w' = walletManager w2
    /\ log w' = (log w2 ++ [EvSteps (steps (uiManager w'));
                            EvNotification (message e) "error"])%list
    /\ is_completed (step1 (steps (uiManager w')))
    /\ (cls_error (step2 (steps (uiManager w'))) = true
        /\ cls_active (step2 (steps (uiManager w'))) = false
        /\ step_status (step2 (steps (uiManager w'))) = HtmlCross)
    /\ is_untouched (step3 (steps (uiManager w')))
    /\ is_untouched (step4 (steps (uiManager w'))).
Proof.
  destruct w as [[wal conn pk ic net] dm [[s1 s2 s3 s4] cd pm th dh] lg].
  destruct s1, s2, s3, s4.
  cbn [walletManager uiManager isConnected currentDomain paymentMethod_value].
  intros -> -> Hd Hreg.
  destruct d as [|c d]; [congruence|].
  destruct (registerDomain_throws_fresh_error env _ _ _ _ _ Hreg)
    as [msg [-> Hmsg]].
  panel_in Hreg.
  unfold handleDomainRegistration.
  lazy beta iota zeta delta [try_catch attempt bind get isConnected walletManager
                             uiManager currentDomain truthy_string negb].
  panel. rewrite Hreg.
  destruct w2 as [wm2 dm2 um2 lg2].
  use_frames Hreg (registerDomain_session env) (registerDomain_frame env is_quiet).
  panel. unfold is_completed, is_untouched. cbn [message newError or_string].
  destruct msg as [|m0 msg]; [congruence|]. cbn [truthy_string].
  eexists. split; [reflexivity|]. panel.
  rewrite <- ?app_assoc. repeat split.
Qed.


Ltac keeps_error :=
  panel;
  match goal with
  | |- exists w', (Normal tt, ?W) = _ /\ _ =>
      exists W; split; [reflexivity|]
  end;
  let el := fresh "el" in
  let Hn := fresh "Hn" in
  let He := fresh "He" in
  intros [|[|[|[|[|?]]]]] el Hn He; try discriminate Hn;
  cbn in Hn; injection Hn as <-; cbn in He; subst;
  eexists; split; reflexivity.

(** X22: nothing in the handler ever removes the error class from a step:
    a step that carries it before a run, from an earlier failed attempt,
    still carries it after, whatever the run does. *)
Theorem error_class_is_never_cleared (w : World) :
  exists w',
    handleDomainRegistration env w = (Normal tt, w')
    /\ forall n el,
         step_at n (steps (uiManager w)) = Some el ->
         cls_error el = true ->
         exists el', step_at n (steps (uiManager w')) = Some el'
                     /\ cls_error el' = true.
Proof.
  destruct w as [[wal conn pk ic net] dm [[s1 s2 s3 s4] cd pm th dh] lg].
  destruct s1, s2, s3, s4.
  unfold handleDomainRegistration.
  lazy beta iota zeta delta [try_catch attempt bind get isConnected walletManager
                             uiManager currentDomain].
  destruct ic; cbn [negb]; [|keeps_error].
  destruct (truthy_string match cd with Some d => d | None => "" end);
    cbn [negb]; [|keeps_error].
  panel.
  match goal with
  | |- context [registerDomain env ?d ?p ?W] =>
      destruct (registerDomain env d p W) as [r [wm2 dm2 um2 lg2]] eqn:Hreg
  end.
  use_frames Hreg (registerDomain_session env) (registerDomain_frame env is_quiet).
  destruct r as [reg|err]; panel; [|keeps_error].
  match goal with
  | |- context [getBalance env ?W] =>
      destruct (getBalance env W) as [rb [wm4 dm4 um4 lg4]] eqn:Hbal
  end.
  use_frames Hbal (getBalance_session env) (getBalance_frame env is_quiet).
  destruct rb as [newBalance|err]; panel; [|keeps_error].
  destruct pk; keeps_error.
Qed.

(** X23: a network switch that succeeds (or finds the session already
    there) ends, for a session that is disconnected or holds its key, with
    the form reset: no domain selected and the transaction panel hidden, so
    that the register button then only answers "No domain selected"; a switch
    that fails shows its error and leaves the form as it is.  The handler
    throws in neither case. *)
Theorem handleNetworkSwitch_resets_form (network : string) (w : World) :
  (forall msg n w1,
     switchNetwork env network w = (Normal (SwitchOk msg n), w1) ->
     isConnected (walletManager w1) = false
     \/ publicKey (walletManager w1) <> None ->
     exists w',
       handleNetworkSwitch env network w = (Normal tt, w')
       /\ currentDomain (uiManager w') = None
       /\ transactionStatus_hidden (uiManager w') = true
       /\ steps (uiManager w') = steps (uiManager w1)
       /\ walletManager w' = walletManager w1
       /\ notifications (log w')
          = (notifications (log w1) ++ [EvNotification msg "success"])%list
       /\ (isConnected (walletManager w1) = true ->
           handleDomainRegistration env w'
           = (Normal tt,
              set_log (fun l => (l ++ [EvNotification "No domain selected" "error"])%list)
                w')))
  /\ (forall err w1,
        switchNetwork env network w = (Normal (SwitchFailed err), w1) ->
        handleNetworkSwitch env network w
        = (Normal tt,
           set_log (fun l => (l ++ [EvNotification err "error"])%list) w1)).
Proof.
  split.
  - intros msg n [[wal conn pk ic net] dm [st cd pm th dh] lg] Hsw Hkey.
    cbn [walletManager isConnected publicKey] in Hkey.
    unfold handleNetworkSwitch.
    lazy beta iota zeta delta [try_catch attempt bind]. rewrite Hsw. panel.
    destruct ic.
    + destruct Hkey as [Hkey|Hkey]; [discriminate Hkey|].
      match goal with
      | |- context [getBalance env ?W] =>
          destruct (getBalance_returns_number env W)
            as [balance [[wm4 dm4 um4 lg4] Hbal]];
          rewrite Hbal
      end.
      use_frames Hbal (getBalance_session env) (getBalance_frame env is_quiet).
      destruct pk as [k|]; [|congruence].
      panel. eexists. split; [reflexivity|]. panel.
      repeat (split; [reflexivity|]). split.
      * rewrite !notifications_app, (notifications_quiet _ Hquiet).
        cbn [notifications filter is_notification]. now rewrite ?app_nil_r.
      * intros _. unfold handleDomainRegistration.
        lazy beta iota zeta delta [try_catch attempt bind get isConnected
                                   walletManager uiManager currentDomain
                                   truthy_string negb].
        panel. reflexivity.
    + panel. eexists. split; [reflexivity|]. panel.
      repeat (split; [reflexivity|]). split.
      * rewrite !notifications_app.
        cbn [notifications filter is_notification]. now rewrite ?app_nil_r.
      * discriminate.
  - intros err w1 Hsw. unfold handleNetworkSwitch.
    lazy beta iota zeta delta [try_catch attempt bind]. rewrite Hsw.
    reflexivity.
Qed.

End HandlerProperties.

(* ================================================================== *)
(** * Suggestions: when there is nothing to suggest *)

Lemma violation_invalid r d :
  violates r d -> isValid (validateDomainName d) = false.
Proof.
  intros Hv. rewrite validateDomainName_cascade.
  destruct (first_violation d) as [r0|] eqn:E; [reflexivity|].
  exfalso. exact (proj1 (first_violation_None d) E r Hv).
Qed.

Lemma append_assoc (a b c : string) : (a ++ b) ++ c = a ++ (b ++ c).
Proof. induction a as [|x a IH]; cbn; [reflexivity | now rewrite IH]. Qed.

Lemma list_ascii_of_append a b :
  list_ascii_of_string (a ++ b)
  = (list_ascii_of_string a ++ list_ascii_of_string b)%list.
Proof. induction a as [|x a IH]; cbn; [reflexivity | now rewrite IH]. Qed.

(** A base name that is 32 characters long or more, holds a character
    outside the class or a doubled hyphen, or starts with a hyphen, makes
    every extension of it invalid. *)
Lemma hopeless_base base suffix :
  32 <= String.length base
  \/ violates RuleCharset base
  \/ violates RuleDoubleHyphen base
  \/ (exists t, base = "-" ++ t) ->
  suffix <> "" ->
  isValid (validateDomainName (base ++ suffix)) = false.
Proof.
  intros [H|[[c [Hin Hc]]|[[l [t H]]|[t H]]]] Hs.
  - apply (violation_invalid RuleTooLong). cbn. rewrite length_append.
    destruct suffix; [congruence | cbn; lia].
  - apply (violation_invalid RuleCharset). exists c. split; [|exact Hc].
    rewrite list_ascii_of_append. apply in_or_app. now left.
  - apply (violation_invalid RuleDoubleHyphen). exists l, (t ++ suffix).
    subst base. now rewrite !append_assoc.
  - apply (violation_invalid RuleEdgeHyphen). left. exists (t ++ suffix).
    subst base. now rewrite append_assoc.
Qed.

(** X24: for a base name that is already 32 characters long, or holds a
    character outside [[a-z0-9-]] or a doubled hyphen, or starts with a
    hyphen, [searchSimilarDomains] suggests nothing and asks the name service
    nothing: no candidate it could build would pass validation. *)
Theorem searchSimilarDomains_nothing_to_suggest
    (env : Env) (baseDomain : string) (w : World) :
  32 <= String.length baseDomain
  \/ violates RuleCharset baseDomain
  \/ violates RuleDoubleHyphen baseDomain
  \/ (exists t, baseDomain = "-" ++ t) ->
  searchSimilarDomains env baseDomain w = (Normal [], w).
Proof.
  intros H. unfold searchSimilarDomains, suffixes.
  cbn [searchSimilarDomains_loop List.length]. cbn [Nat.leb maxSuggestions].
  rewrite !(hopeless_base baseDomain _ H) by discriminate.
  reflexivity.
Qed.

(* ================================================================== *)
(** * The wallet button *)

Section WalletButton.

Variable env : Env.





End WalletButton.

(* ================================================================== *)
(** * These properties at work on the scripted world *)

Lemma double_hyphen_is_first_violation :
  violates RuleDoubleHyphen "my--name"
  /\ forall r', rank r' < rank RuleDoubleHyphen -> ~ violates r' "my--name".
Proof.
  split; [exists "my", "name"; reflexivity|].
  intros r' Hlt. apply violatesb_false.
  destruct r'; [reflexivity.. | simpl in Hlt; lia].
Qed.

Lemma checkDomainAvailability_rejects_invalid_witness :
  checkDomainAvailability stub "my--name" page
  = (Normal (Some (CheckFailed "Domain name cannot contain consecutive hyphens")),
     page).
Proof.
  destruct double_hyphen_is_first_violation as [Hv Hfirst].
  exact (checkDomainAvailability_rejects_invalid stub "my--name"
           RuleDoubleHyphen page Hv Hfirst).
Defined.

Lemma registerDomain_not_connected_witness :
  isConnected (walletManager page_disconnected) = false
  /\ registerDomain stub "abc" "SOL" page_disconnected
     = (Throw (newError "Wallet not connected"), page_disconnected).
Proof.
  split; [reflexivity|].
  exact (registerDomain_not_connected stub "abc" "SOL" page_disconnected eq_refl).
Defined.

Lemma registerDomain_invalid_name_witness :
  exists w',
    registerDomain stub "my--name" "SOL" page
    = (Throw (newError "Domain name cannot contain consecutive hyphens"), w')
    /\ log w' = log page.
Proof.
  destruct double_hyphen_is_first_violation as [Hv Hfirst].
  destruct (registerDomain_invalid_name stub "my--name" "SOL"
              RuleDoubleHyphen page eq_refl Hv Hfirst) as [w' [H1 [H2 _]]].
  exists w'. split; assumption.
Defined.

Lemma registerDomain_unavailable_witness :
  registerDomain stub "taken" "SOL" page
  = (Throw (newError "Domain is not available for registration"),
     after_lookup "taken" page).
Proof.
  destruct (registerDomain_unavailable stub "taken" "SOL" page eq_refl eq_refl)
    as [H _].
  exact (H "Fg6PaFpo" eq_refl).
Defined.

Lemma registerDomain_error_has_message_witness :
  exists e w',
    registerDomain poor "abc" "SOL" page = (Throw e, w')
    /\ message e <> "" /\ code e = None.
Proof.
  assert (H : registerDomain poor "abc" "SOL" page
              = (Throw (newError "Insufficient balance. You need n SOL but only have n SOL"),
                 snd (registerDomain poor "abc" "SOL" page)))
    by (vm_compute; reflexivity).
  eexists _, _. split; [exact H|].
  exact (registerDomain_error_has_message poor "abc" "SOL" page _ _ H).
Defined.

Lemma signAndSendTransaction_error_has_message_witness :
  exists e w',
    signAndSendTransaction refusing draft page = (Throw e, w')
    /\ message e <> "" /\ code e = None.
Proof.
  assert (H : signAndSendTransaction refusing draft page
              = (Throw (newError "Transaction rejected by user"),
                 snd (signAndSendTransaction refusing draft page)))
    by (vm_compute; reflexivity).
  eexists _, _. split; [exact H|].
  exact (signAndSendTransaction_error_has_message refusing draft page _ _ H).
Defined.

Lemma getBalance_without_session_witness :
  isConnected (walletManager page_disconnected) = false
  /\ getBalance stub page_disconnected = (Normal (Some 0%float), page_disconnected).
Proof.
  split; [reflexivity|].
  exact (getBalance_without_session stub page_disconnected (or_introl eq_refl)).
Defined.

Lemma getBalance_without_connection_witness :
  getBalance stub page_offline
  = (Normal (Some 0%float),
     set_log (fun l => (l ++ [EvSetTimeout 1000; EvSetTimeout 1000])%list)
       page_offline).
Proof.
  exact (getBalance_without_connection stub page_offline "7EcDhSYG"
           eq_refl eq_refl eq_refl).
Defined.



Lemma nothing_reaches_out_after_disconnect_witness :
  let w := snd (disconnect stub page) in
  disconnect stub page = (Normal tt, w)
  /\ registerDomain stub "abc" "SOL" w = (Throw (newError "Wallet not connected"), w)
  /\ getBalance stub w = (Normal (Some 0%float), w).
Proof.
  intros w.
  assert (H : disconnect stub page = (Normal tt, w)) by (vm_compute; reflexivity).
  destruct (nothing_reaches_out_after_disconnect stub page w draft "abc" "SOL"
              (Fulfilled "sig") 2%float H) as [_ [Hreg [_ [Hbal _]]]].
  split; [exact H|]. split; assumption.
Defined.

Lemma requestAirdrop_outcomes_witness :
  requestAirdrop stub (Fulfilled "4vJ9JU1b") 2%float page_disconnected
  = (Throw (newError "Wallet not connected"), page_disconnected)
  /\ exists a w',
       requestAirdrop stub (Fulfilled "4vJ9JU1b") 2%float page = (Normal a, w')
       /\ ad_amount a = 2%float
       /\ log w' = [EvConfirmTransaction (ad_signature a)].
Proof.
  split.
  - destruct (requestAirdrop_outcomes stub (Fulfilled "4vJ9JU1b") 2%float
                page_disconnected) as [H _].
    apply H. left. reflexivity.
  - destruct (requestAirdrop_outcomes stub (Fulfilled "4vJ9JU1b") 2%float page)
      as [_ [_ [H _]]].
    assert (Hrun : requestAirdrop stub (Fulfilled "4vJ9JU1b") 2%float page
                   = (Normal {| ad_signature := "4vJ9JU1b"; ad_amount := 2;
                                ad_network := "devnet" |},
                      snd (requestAirdrop stub (Fulfilled "4vJ9JU1b") 2%float page)))
      by (vm_compute; reflexivity).
    destruct (H _ _ Hrun) as [_ [_ [Hamount [_ Hlog]]]].
    eexists _, _. split; [exact Hrun|]. split; [exact Hamount | exact Hlog].
Defined.


Lemma formatAddress_shape_witness :
  exists first middle last,
    "7EcDhSYGx4Kp9Tn2" = first ++ middle ++ last
    /\ String.length first = 4 /\ String.length last = 4
    /\ formatAddress "7EcDhSYGx4Kp9Tn2" 4 4 = first ++ "..." ++ last.
Proof.
  destruct (formatAddress_shape "7EcDhSYGx4Kp9Tn2" 4 4) as [_ [H _]].
  apply H; cbn; lia.
Defined.

Lemma admin_formatAddress_vs_formatAddress_witness :
  admin_formatAddress "abc" = "abc...abc" /\ formatAddress "abc" 4 4 = "abc".
Proof.
  destruct (admin_formatAddress_vs_formatAddress "abc") as [_ H].
  apply H. cbn. lia.
Defined.

Lemma sanitizeDomainInput_meets_validator_witness :
  sanitizeDomainInput ascii_toLowerCase "--My__Name--X" = "myname-x"
  /\ sanitizeDomainInput ascii_toLowerCase
       (sanitizeDomainInput ascii_toLowerCase "--My__Name--X")
     = sanitizeDomainInput ascii_toLowerCase "--My__Name--X"
  /\ validateDomainName (sanitizeDomainInput ascii_toLowerCase "--My__Name--X")
     = {| isValid := true; error := None |}.
Proof.
  destruct (sanitizeDomainInput_meets_validator ascii_toLowerCase "--My__Name--X")
    as [_ [_ [_ [Hvalid Hidem]]]].
  split; [reflexivity|]. split; [exact (Hidem ascii_toLowerCase_fixes)|].
  apply Hvalid. split; [discriminate|]. split; [cbn; lia|].
  rewrite <- endsWith_spec. discriminate.
Defined.

Lemma handleDomainRegistration_failure_display_witness :
  exists w',
    handleDomainRegistration refusing page = (Normal tt, w')
    /\ cls_error (step2 (steps (uiManager w'))) = true
    /\ is_untouched (step3 (steps (uiManager w'))).
Proof.
  assert (H : registerDomain refusing "abc" (paymentMethod_value (uiManager page))
                (at_registration page)
              = (Throw (newError "Transaction rejected by user"),
                 snd (registerDomain refusing "abc" "SOL" (at_registration page))))
    by (vm_compute; reflexivity).
  destruct (handleDomainRegistration_failure_display refusing page "abc" _ _
              eq_refl eq_refl ltac:(discriminate) H)
    as [w' [Hrun [_ [_ [_ [[Herr _] [H3 _]]]]]]].
  exists w'. repeat split; try assumption; apply H3.
Defined.


Lemma error_class_is_never_cleared_witness :
  cls_error (step2 (steps (uiManager page_after_refusal))) = true
  /\ exists w' el',
       handleDomainRegistration stub page_after_refusal = (Normal tt, w')
       /\ step_at 2 (steps (uiManager w')) = Some el'
       /\ cls_error el' = true.
Proof.
  assert (Hat : step_at 2 (steps (uiManager page_after_refusal))
                = Some (step2 (steps (uiManager page_after_refusal))))
    by reflexivity.
  assert (Herr : cls_error (step2 (steps (uiManager page_after_refusal))) = true)
    by (vm_compute; reflexivity).
  split; [exact Herr|].
  destruct (error_class_is_never_cleared stub page_after_refusal)
    as [w' [Hrun Hkeep]].
  destruct (Hkeep 2 (step2 (steps (uiManager page_after_refusal))) Hat Herr)
    as [el' [Hat' Herr']].
  exists w', el'. split; [exact Hrun|]. split; [exact Hat' | exact Herr'].
Defined.

Lemma handleNetworkSwitch_resets_form_witness :
  exists w',
    handleNetworkSwitch stub "devnet" page = (Normal tt, w')
    /\ currentDomain (uiManager w') = None
    /\ handleDomainRegistration stub w'
       = (Normal tt,
          set_log (fun l => (l ++ [EvNotification "No domain selected" "error"])%list)
            w').
Proof.
  assert (Hswitch : switchNetwork stub "devnet" page
                    = (Normal (SwitchOk "Already on devnet" None), page))
    by (vm_compute; reflexivity).
  assert (Hkey : isConnected (walletManager page) = false
                 \/ publicKey (walletManager page) <> None)
    by (right; vm_compute; discriminate).
  assert (Hon : isConnected (walletManager page) = true)
    by (vm_compute; reflexivity).
  destruct (handleNetworkSwitch_resets_form stub "devnet" page) as [H _].
  destruct (H "Already on devnet" None page Hswitch Hkey)
    as [w' [Hrun [Hcd [_ [_ [_ [_ Hnext]]]]]]].
  exists w'. split; [exact Hrun|]. split; [exact Hcd|].
  exact (Hnext Hon).
Defined.

Lemma searchSimilarDomains_nothing_to_suggest_witness :
  searchSimilarDomains stub "-abc" page = (Normal [], page).
Proof.
  apply searchSimilarDomains_nothing_to_suggest.
  right. right. right. now exists "abc".
Defined.

